(** * Resource deployment: the spreadsheet-to-record extraction of [app.py]

    A shallow embedding of [process_excel_file] and
    [calculate_fte_allocations] of [src/app.py], and of the label-search
    revision of [process_excel_file] kept in
    [src/.history/app_20250502145533.py], with the properties the
    specification states about them.

    Conventions of the embedding.
    - A Python [str] is a [string]; each character is one code point below
      256.
    - A cell of a pandas frame is either missing ([NaN], what [pd.isna]
      recognises) or a value, kept as its [str()] image: the code only ever
      applies [pd.isna] and [str] to a cell.
    - A frame read with [pd.read_excel] is its width [shape1] and its list
      of rows; a row shorter than the width reads as padded with [NaN], as
      pandas pads ragged rows, and cells beyond the width are not part of
      the frame.
    - Exceptions are explicit: fallible code returns [Result]. *)

From Stdlib Require Import Floats ZArith Ascii String.
From stdpp Require Import gmap strings list.

(** ** Python strings *)

Module PyStr.

(** [str.isspace] on the code points below 256. *)
Definition isspace (c : ascii) : bool :=
  let n := nat_of_ascii c in
  ((9 <=? n) && (n <=? 13)) || ((28 <=? n) && (n <=? 32))
  || (n =? 133) || (n =? 160).

Fixpoint lstrip (s : string) : string :=
  match s with
  | EmptyString => EmptyString
  | String c s' => if isspace c then lstrip s' else s
  end.

Fixpoint rstrip (s : string) : string :=
  match s with
  | EmptyString => EmptyString
  | String c s' =>
      match rstrip s' with
      | EmptyString => if isspace c then EmptyString else String c EmptyString
      | r => String c r
      end
  end.

(** [s.strip()] *)
Definition strip (s : string) : string := rstrip (lstrip s).

(** Truth value of a string: [bool(s)], false exactly for the empty one. *)
Definition truthy (s : string) : bool :=
  match s with EmptyString => false | _ => true end.

(** [c in s] for a one-character [c]. *)
Fixpoint contains (c : ascii) (s : string) : bool :=
  match s with
  | EmptyString => false
  | String d s' => if Ascii.eqb d c then true else contains c s'
  end.

(** [s.split(sep)] for a one-character separator: never an empty list. *)
Fixpoint split (sep : ascii) (s : string) : list string :=
  match s with
  | EmptyString => [EmptyString]
  | String c s' =>
      if Ascii.eqb c sep then EmptyString :: split sep s'
      else match split sep s' with
           | p :: ps => String c p :: ps
           | [] => [String c EmptyString]
           end
  end.

(** [sep.join(pieces)] *)
Fixpoint join (sep : ascii) (pieces : list string) : string :=
  match pieces with
  | [] => EmptyString
  | [p] => p
  | p :: ps => p +:+ String sep (join sep ps)
  end.

Fixpoint all_hyphens (s : string) : bool :=
  match s with
  | EmptyString => true
  | String c s' => Ascii.eqb c "-"%char && all_hyphens s'
  end.

(** The text [$] leaves to be matched: [$] matches at the very end, and
    also just before a newline that ends the string. *)
Fixpoint before_final_newline (s : string) : string :=
  match s with
  | EmptyString => EmptyString
  | String c EmptyString => if Ascii.eqb c "010"%char then EmptyString else s
  | String c s' => String c (before_final_newline s')
  end.

End PyStr.

Import PyStr.

(** [re.match(r'^(TBD|N/A|None|Select|-+)$', s)]: no flag is passed, so the
    match is case-sensitive. *)
Definition placeholder_body (s : string) : bool :=
  String.eqb s "TBD" || String.eqb s "N/A" || String.eqb s "None"
  || String.eqb s "Select" || (truthy s && all_hyphens s).

Definition re_match_placeholder (s : string) : bool :=
  placeholder_body s || placeholder_body (before_final_newline s).

(** ** Frames, exceptions and loops *)

(** A cell: missing, or a value given by its [str()] image. *)
Inductive Cell : Type :=
  | NaN
  | Val (s : string).

(** [pd.isna(v)] *)
Definition isna (v : Cell) : bool :=
  match v with NaN => true | Val _ => false end.

(** [str(v)] *)
Definition str (v : Cell) : string :=
  match v with NaN => "nan" | Val s => s end.

(** The frame [pd.read_excel(file_path, sheet_name=..., header=None)]. *)
Record DataFrame : Type := mkFrame {
  shape1 : nat;
  rows : list (list Cell)
}.

Definition shape0 (df : DataFrame) : nat := length (rows df).

Inductive Exn : Type := IndexError | KeyError | TypeError.

Inductive Result (A : Type) : Type :=
  | Ok (a : A)
  | Raise (e : Exn).

Arguments Ok {A} a.
Arguments Raise {A} e.

#[global] Instance Result_ret : MRet Result := @Ok.

#[global] Instance Result_bind : MBind Result := fun A B f m =>
  match m with
  | Ok a => f a
  | Raise e => Raise e
  end.

(** [for x in xs: st = body(st, x)], an exception leaving the loop. *)
Fixpoint for_each {S A : Type} (body : S -> A -> Result S) (st : S) (xs : list A)
  : Result S :=
  match xs with
  | [] => Ok st
  | x :: xs' => st' ← body st x; for_each body st' xs'
  end.

(** [range(a, b)] *)
Definition range (a b : nat) : list nat := seq a (b - a).

(** [range(c, -1, -1)] *)
Definition range_down (c : nat) : list nat := rev (seq 0 (S c)).

(** The cell of a row at a column inside the frame. *)
Definition cell (row : list Cell) (c : nat) : Cell := default NaN (row !! c).

(** [df.iloc[r, c]] *)
Definition iloc (df : DataFrame) (r c : nat) : Result Cell :=
  if (r <? shape0 df) && (c <? shape1 df)
  then Ok (cell (default [] (rows df !! r)) c)
  else Raise IndexError.

(** [df.iloc[r]] *)
Definition iloc_row (df : DataFrame) (r : nat) : Result (list Cell) :=
  if r <? shape0 df then Ok (default [] (rows df !! r)) else Raise IndexError.

(** [row[c]] for a row of [df]: the row is labelled by [0 .. shape1 - 1]. *)
Definition getitem (df : DataFrame) (row : list Cell) (c : nat) : Result Cell :=
  if c <? shape1 df then Ok (cell row c) else Raise KeyError.

(** [pd.isna(v) or not str(v).strip()] *)
Definition blank (v : Cell) : bool :=
  isna v || negb (truthy (strip (str v))).

(** ** The records *)

(** One entry of [full_data]; [allocation] is the column that
    [calculate_fte_allocations] adds, [None] while it is absent. *)
Record Rec : Type := mkRec {
  account : string;
  client_type : string;
  leader : string;
  atl_manager : string;
  technology_area : string;
  role_category : string;
  role : string;
  person : string;
  allocation : option float
}.

(** The variables [process_excel_file] updates while it runs. *)
Record Extr : Type := mkExtr {
  full_data : list Rec;
  account_personnel_count : gmap string nat;
  sheet_personnel_count : nat;
  row_personnel_count : nat
}.

(** ** [process_excel_file] of [app.py] *)

(** Lines 53-56 for [r = 0] ([role_categories]) and 58-61 for [r = 1]
    ([roles]): the labels of a header row, keyed by column. *)
Definition read_labels_step (df : DataFrame) (r : nat) (d : gmap nat string) (col : nat)
  : Result (gmap nat string) :=
  v ← iloc df r col;
  if negb (isna v) && truthy (strip (str v))
  then Ok (<[col := strip (str v)]> d)
  else Ok d.

Definition read_labels (df : DataFrame) (r : nat) : Result (gmap nat string) :=
  for_each (read_labels_step df r) ∅ (range 0 (shape1 df)).

(** Lines 114-118 and 121-125:
    [for c in range(col_idx, -1, -1): if c in d: x = d[c]; break],
    with [x] initialised to the empty string. *)
Fixpoint scan_left (d : gmap nat string) (cols : list nat) : string :=
  match cols with
  | [] => ""
  | c :: cols' =>
      match d !! c with
      | Some label => label
      | None => scan_left d cols'
      end
  end.

(** Lines 128-134. *)
Definition split_names (person_name : string) : list string :=
  if contains ","%char person_name then
    map strip (List.filter (fun name => truthy (strip name)) (split ","%char person_name))
  else if contains "/"%char person_name then
    map strip (List.filter (fun name => truthy (strip name)) (split "/"%char person_name))
  else [person_name].

Section Sheet.

Variables (df : DataFrame) (sheet_name : string).
Variables (role_categories roles : gmap nat string).

(** Lines 137-156: the body of [for name in names]. The key
    [account_name] of [account_personnel_count] was set at lines 88-89. *)
Definition add_person (account_name client_type leader manager : string)
    (role_category role_name : string) (st : Extr) (name : string) : Extr :=
  if re_match_placeholder name then st
  else
    {| full_data := full_data st ++
         [ {| account := account_name; client_type := client_type;
              leader := leader; atl_manager := manager;
              technology_area := sheet_name; role_category := role_category;
              role := role_name; person := name; allocation := None |} ];
       account_personnel_count :=
         <[account_name := S (default 0 (account_personnel_count st !! account_name))]>
           (account_personnel_count st);
       sheet_personnel_count := S (sheet_personnel_count st);
       row_personnel_count := S (row_personnel_count st) |}.

(** Lines 99-156: the body of [for col_idx in range(7, df.shape[1])]. *)
Definition process_cell (row : list Cell) (account_name client_type leader manager : string)
    (st : Extr) (col_idx : nat) : Result Extr :=
  cell_value ← getitem df row col_idx;
  if blank cell_value then Ok st
  else
    let person_name := strip (str cell_value) in
    if re_match_placeholder person_name then Ok st
    else
      let role_name := scan_left roles (range_down col_idx) in
      let role_category := scan_left role_categories (range_down col_idx) in
      let names := split_names person_name in
      Ok (fold_left (add_person account_name client_type leader manager
                       role_category role_name) names st).

(** Lines 92-94: [str(row[c]).strip() if not pd.isna(row[c]) else ""]. *)
Definition management_field (row : list Cell) (c : nat) : Result string :=
  v ← getitem df row c;
  Ok (if negb (isna v) then strip (str v) else "").

(** Lines 79-158: the body of [for row_idx in data_rows], after
    [row = df.iloc[row_idx]]. *)
Definition process_row (st : Extr) (row : list Cell) : Result Extr :=
  a ← getitem df row 1;
  if blank a then Ok st
  else
    let account_name := strip (str a) in
    let counts :=
      match account_personnel_count st !! account_name with
      | None => <[account_name := 0]> (account_personnel_count st)
      | Some _ => account_personnel_count st
      end in
    client_type ← management_field row 2;
    leader ← management_field row 3;
    manager ← management_field row 4;
    for_each (process_cell row account_name client_type leader manager)
      {| full_data := full_data st; account_personnel_count := counts;
         sheet_personnel_count := sheet_personnel_count st;
         row_personnel_count := 0 |}
      (range 7 (shape1 df)).

Definition process_row_idx (st : Extr) (row_idx : nat) : Result Extr :=
  row ← iloc_row df row_idx;
  process_row st row.

End Sheet.

(** Lines 43-161: the body of [for sheet_name in sheet_names]; a sheet is
    its name and the frame read from it. *)
Definition process_sheet (st : Extr) (sheet : string * DataFrame) : Result Extr :=
  let '(sheet_name, df) := sheet in
  role_categories ← read_labels df 0;
  roles ← read_labels df 1;
  for_each (process_row_idx df sheet_name role_categories roles)
    {| full_data := full_data st;
       account_personnel_count := account_personnel_count st;
       sheet_personnel_count := 0;
       row_personnel_count := row_personnel_count st |}
    (range 2 (min 56 (shape0 df))).

Definition initial : Extr :=
  {| full_data := []; account_personnel_count := ∅;
     sheet_personnel_count := 0; row_personnel_count := 0 |}.

(** [process_excel_file]: the workbook is the list of its sheets in
    [wb.sheetnames] order; the result is the list behind
    [pd.DataFrame(full_data)]. *)
Definition process_excel_file (wb : list (string * DataFrame)) : Result (list Rec) :=
  st ← for_each process_sheet initial wb;
  Ok (full_data st).

(** ** [calculate_fte_allocations] of [app.py] *)

(** [data_frame.groupby('person')['account']]: for each person, the set of
    the account values of that person's rows. *)
Definition group_step (groups : gmap string (gset string)) (r : Rec)
  : gmap string (gset string) :=
  <[person r := {[account r]} ∪ default ∅ (groups !! person r)]> groups.

Definition groupby_person_account (data_frame : list Rec) : gmap string (gset string) :=
  fold_left group_step data_frame ∅.

(** [.nunique()]: the number of distinct values in each group. *)
Definition person_account_counts (data_frame : list Rec) : gmap string nat :=
  size <$> groupby_person_account data_frame.

(** [1.0 / count] in binary64, [count] being an int64. *)
Definition one_over (count : nat) : float :=
  PrimFloat.div 1%float (PrimFloat.of_uint63 (Uint63.of_Z (Z.of_nat count))).

Definition allocation_dict (data_frame : list Rec) : gmap string float :=
  one_over <$> person_account_counts data_frame.

(** [data_frame['allocation'] = data_frame['person'].map(allocation_dict)] *)
Definition set_allocation (d : gmap string float) (r : Rec) : Rec :=
  {| account := account r; client_type := client_type r; leader := leader r;
     atl_manager := atl_manager r; technology_area := technology_area r;
     role_category := role_category r; role := role r; person := person r;
     allocation := d !! person r |}.

(** The frame is the list of its rows. An empty list stands for
    [pd.DataFrame([])], which has no column at all, so
    [groupby('person')] raises [KeyError]. *)
Definition calculate_fte_allocations (data_frame : list Rec) : Result (list Rec) :=
  match data_frame with
  | [] => Raise KeyError
  | _ => Ok (map (set_allocation (allocation_dict data_frame)) data_frame)
  end.

(** ** [process_excel_file] of the label-search revision
    ([.history/app_20250502145533.py]) *)

Module LabelSearch.

(** There the frame is read with the default header: the first row of the
    sheet names the columns, [rows] are the rows below it, and [row[c]]
    with an integer [c] is positional. *)

(** [row.values] *)
Definition values (df : DataFrame) (row : list Cell) : list Cell :=
  map (cell row) (range 0 (shape1 df)).

(** [x in row.values] *)
Definition in_values (x : string) (vs : list Cell) : bool :=
  existsb (fun v => match v with Val s => String.eqb s x | NaN => false end) vs.

(** Lines 54-59: the first row holding a cell ["Coverage Name"]. *)
Fixpoint find_header (df : DataFrame) (rs : list (list Cell)) (i : nat) : option nat :=
  match rs with
  | [] => None
  | row :: rs' =>
      if in_values "Coverage Name" (values df row) then Some i
      else find_header df rs' (S i)
  end.

Definition header_row_idx (df : DataFrame) : option nat :=
  find_header df (rows df) 0.

(** Lines 72-75: [column_mapping], in insertion order. *)
Definition column_mapping (df : DataFrame) (header : list Cell) : list (nat * string) :=
  omap (fun '(col_idx, value) =>
          if negb (isna value) && truthy (strip (str value))
          then Some (col_idx, strip (str value)) else None)
       (imap (fun col_idx value => (col_idx, value)) (values df header)).

Record KeyCols : Type := mkKeyCols {
  account_col_idx : option nat;
  client_type_col_idx : option nat;
  leader_col_idx : option nat;
  manager_col_idx : option nat
}.

(** Lines 83-91. *)
Definition key_columns_step (k : KeyCols) (entry : nat * string) : KeyCols :=
  let '(col_idx, name) := entry in
  if String.eqb name "Coverage Name" then
    mkKeyCols (Some col_idx) (client_type_col_idx k) (leader_col_idx k) (manager_col_idx k)
  else if String.eqb name "Client Sub Type" then
    mkKeyCols (account_col_idx k) (Some col_idx) (leader_col_idx k) (manager_col_idx k)
  else if String.eqb name "Leader" then
    mkKeyCols (account_col_idx k) (client_type_col_idx k) (Some col_idx) (manager_col_idx k)
  else if String.eqb name "ATL Manager" then
    mkKeyCols (account_col_idx k) (client_type_col_idx k) (leader_col_idx k) (Some col_idx)
  else k.

Definition key_columns (mapping : list (nat * string)) : KeyCols :=
  fold_left key_columns_step mapping (mkKeyCols None None None None).

(** Lines 98-103: [col_idx <= manager_col_idx] raises [TypeError] when
    [manager_col_idx] is [None]. *)
Definition role_names_step (manager_col_idx : option nat)
    (role_names : list (nat * string)) (entry : nat * string)
  : Result (list (nat * string)) :=
  let '(col_idx, name) := entry in
  match manager_col_idx with
  | None => Raise TypeError
  | Some m => if col_idx <=? m then Ok role_names else Ok (role_names ++ [(col_idx, name)])
  end.

(** [for prev_col in range(col_idx - 1, -1, -1)] *)
Definition range_below (col_idx : nat) : list nat :=
  match col_idx with 0 => [] | S c => range_down c end.

Fixpoint find_left (d : gmap nat string) (cols : list nat) : option string :=
  match cols with
  | [] => None
  | c :: cols' =>
      match d !! c with
      | Some label => Some label
      | None => find_left d cols'
      end
  end.

(** Lines 108-117. *)
Definition role_categories_step (df : DataFrame) (categories_row_idx : nat)
    (role_categories : gmap nat string) (entry : nat * string)
  : Result (gmap nat string) :=
  let '(col_idx, _) := entry in
  category ← iloc df categories_row_idx col_idx;
  if negb (isna category) && truthy (strip (str category))
  then Ok (<[col_idx := strip (str category)]> role_categories)
  else
    match find_left role_categories (range_below col_idx) with
    | Some label => Ok (<[col_idx := label]> role_categories)
    | None => Ok role_categories
    end.

(** [re.match(r'^(TBD|N/A|None|Select|-)$', s)] *)
Definition placeholder_body (s : string) : bool :=
  String.eqb s "TBD" || String.eqb s "N/A" || String.eqb s "None"
  || String.eqb s "Select" || String.eqb s "-".

Definition re_match_placeholder (s : string) : bool :=
  placeholder_body s || placeholder_body (before_final_newline s).

Section Sheet.

Variables (df : DataFrame) (sheet_name : string).
Variables (k : KeyCols) (account_col : nat).
Variables (role_names : list (nat * string)) (role_categories : gmap nat string).

(** Lines 168-187. *)
Definition add_person (account_name client_type leader manager : string)
    (role_category role_name : string) (st : Extr) (name : string) : Extr :=
  if re_match_placeholder name then st
  else
    {| full_data := full_data st ++
         [ {| account := account_name; client_type := client_type;
              leader := leader; atl_manager := manager;
              technology_area := sheet_name; role_category := role_category;
              role := role_name; person := name; allocation := None |} ];
       account_personnel_count :=
         <[account_name := S (default 0 (account_personnel_count st !! account_name))]>
           (account_personnel_count st);
       sheet_personnel_count := S (sheet_personnel_count st);
       row_personnel_count := S (row_personnel_count st) |}.

(** Lines 141-187: the body of [for col_idx, role_name in role_names.items()]. *)
Definition process_cell (row : list Cell) (account_name client_type leader manager : string)
    (st : Extr) (entry : nat * string) : Result Extr :=
  let '(col_idx, role_name) := entry in
  cell_value ← getitem df row col_idx;
  if blank cell_value then Ok st
  else
    let person_name := strip (str cell_value) in
    if re_match_placeholder person_name then Ok st
    else
      let role_category := default "" (role_categories !! col_idx) in
      let names := split_names person_name in
      Ok (fold_left (add_person account_name client_type leader manager
                       role_category role_name) names st).

(** Lines 135-137:
    [str(row[c]).strip() if c is not None and pd.notna(row[c]) else ""]. *)
Definition management_field (row : list Cell) (c : option nat) : Result string :=
  match c with
  | None => Ok ""
  | Some c =>
      v ← getitem df row c;
      Ok (if negb (isna v) then strip (str v) else "")
  end.

(** Lines 122-190: the body of [for row_idx in range(data_start_idx, df.shape[0])]. *)
Definition process_row (st : Extr) (row_idx : nat) : Result Extr :=
  row ← iloc_row df row_idx;
  a ← getitem df row account_col;
  if blank a then Ok st
  else
    let account_name := strip (str a) in
    let counts :=
      match account_personnel_count st !! account_name with
      | None => <[account_name := 0]> (account_personnel_count st)
      | Some _ => account_personnel_count st
      end in
    client_type ← management_field row (client_type_col_idx k);
    leader ← management_field row (leader_col_idx k);
    manager ← management_field row (manager_col_idx k);
    for_each (process_cell row account_name client_type leader manager)
      {| full_data := full_data st; account_personnel_count := counts;
         sheet_personnel_count := sheet_personnel_count st;
         row_personnel_count := 0 |}
      role_names.

End Sheet.

(** Lines 46-192: the body of [for sheet_name in sheet_names]; the two
    [continue] statements skip the sheet. *)
Definition process_sheet (st : Extr) (sheet : string * DataFrame) : Result Extr :=
  let '(sheet_name, df) := sheet in
  match header_row_idx df with
  | None => Ok st
  | Some header_row_idx =>
      let categories_row_idx :=
        if 0 <? header_row_idx then Some (header_row_idx - 1) else None in
      let data_start_idx := header_row_idx + 1 in
      header ← iloc_row df header_row_idx;
      let mapping := column_mapping df header in
      let k := key_columns mapping in
      match account_col_idx k with
      | None => Ok st
      | Some account_col =>
          role_names ← for_each (role_names_step (manager_col_idx k)) [] mapping;
          role_categories ←
            match categories_row_idx with
            | None => Ok ∅
            | Some c => for_each (role_categories_step df c) ∅ role_names
            end;
          for_each (process_row df sheet_name k account_col role_names role_categories)
            {| full_data := full_data st;
               account_personnel_count := account_personnel_count st;
               sheet_personnel_count := 0;
               row_personnel_count := row_personnel_count st |}
            (range data_start_idx (shape0 df))
      end
  end.

Definition process_excel_file (wb : list (string * DataFrame)) : Result (list Rec) :=
  st ← for_each process_sheet initial wb;
  Ok (full_data st).

End LabelSearch.

(** ** The extraction read as functions of a sheet *)

(** The names one personnel cell stands for: lines 102-111 and 127-140 as
    a function of the cell. *)
Definition cell_names (v : Cell) : list string :=
  if blank v then []
  else
    let person_name := strip (str v) in
    if re_match_placeholder person_name then []
    else List.filter (fun name => negb (re_match_placeholder name)) (split_names person_name).

(** All the names of a row, personnel columns in increasing order. *)
Definition row_names (df : DataFrame) (row : list Cell) : list string :=
  flat_map (fun col_idx => cell_names (cell row col_idx)) (range 7 (shape1 df)).

(** A management field of a row (lines 92-94). *)
Definition field (row : list Cell) (c : nat) : string :=
  if negb (isna (cell row c)) then strip (str (cell row c)) else "".

(** The records of one personnel cell: one per name, alike in all but
    [person]. *)
Definition cell_records (sheet_name : string) (role_categories roles : gmap nat string)
    (row : list Cell) (col_idx : nat) : list Rec :=
  map (fun name =>
         {| account := strip (str (cell row 1)); client_type := field row 2;
            leader := field row 3; atl_manager := field row 4;
            technology_area := sheet_name;
            role_category := scan_left role_categories (range_down col_idx);
            role := scan_left roles (range_down col_idx);
            person := name; allocation := None |})
      (cell_names (cell row col_idx)).

Definition row_records (df : DataFrame) (sheet_name : string)
    (role_categories roles : gmap nat string) (row : list Cell) : list Rec :=
  flat_map (cell_records sheet_name role_categories roles row) (range 7 (shape1 df)).

(** Row [i] of the frame. *)
Definition row_at (df : DataFrame) (i : nat) : list Cell := default [] (rows df !! i).

(** The records of the data row [i]: none when its account cell is blank
    (lines 81-83). *)
Definition emitted_at (df : DataFrame) (sheet_name : string)
    (role_categories roles : gmap nat string) (i : nat) : list Rec :=
  if blank (cell (row_at df i) 1) then []
  else row_records df sheet_name role_categories roles (row_at df i).

(** The non-empty, trimmed label of a header cell, if there is one. *)
Definition label (df : DataFrame) (r c : nat) : option string :=
  let v := cell (default [] (rows df !! r)) c in
  if (c <? shape1 df) && negb (blank v) then Some (strip (str v)) else None.

(** The record appended at lines 143-152. *)
Definition new_record (sheet_name : string) (account_name client_type leader manager : string)
    (role_category role_name : string) (name : string) : Rec :=
  {| account := account_name; client_type := client_type; leader := leader;
     atl_manager := manager; technology_area := sheet_name;
     role_category := role_category; role := role_name; person := name;
     allocation := None |}.

(** A string of whitespace only (the empty string included). *)
Fixpoint whitespace_only (s : string) : bool :=
  match s with
  | EmptyString => true
  | String c s' => isspace c && whitespace_only s'
  end.

(** [n] hyphens. *)
Fixpoint hyphens (n : nat) : string :=
  match n with
  | 0 => EmptyString
  | S n' => String "-"%char (hyphens n')
  end.

(** The fixed placeholder set, letter case as written: TBD, N/A, None,
    Select, or one or more hyphens. *)
Definition is_placeholder (s : string) : Prop :=
  s = "TBD" \/ s = "N/A" \/ s = "None" \/ s = "Select" \/ exists n, s = hyphens (S n).

(** The category of a column as the specification words it: the label of
    the nearest column at or to the left of [col_idx] whose category cell
    (row 0) is not blank, the empty string when there is none. *)
Definition category_of (df : DataFrame) (col_idx : nat) (category : string) : Prop :=
  (exists c, c <= col_idx /\ label df 0 c = Some category /\
             forall c', c < c' <= col_idx -> label df 0 c' = None)
  \/ (category = "" /\ forall c, c <= col_idx -> label df 0 c = None).

(** Lines 53-56 followed by lines 121-125 for one column. *)
Definition resolved_category (df : DataFrame) (col_idx : nat) : Result string :=
  role_categories ← read_labels df 0;
  Ok (scan_left role_categories (range_down col_idx)).

(** Splitting as the specification words it: [pieces] are what lies
    between the separators of [v]. *)
Definition split_by (sep : ascii) (v : string) (pieces : list string) : Prop :=
  pieces <> [] /\ join sep pieces = v /\
  Forall (fun piece => contains sep piece = false) pieces.

(** Comma before slash, else a single name. *)
Definition pieces_of (v : string) (pieces : list string) : Prop :=
  (contains ","%char v = true /\ split_by ","%char v pieces)
  \/ (contains ","%char v = false /\ contains "/"%char v = true /\
      split_by "/"%char v pieces)
  \/ (contains ","%char v = false /\ contains "/"%char v = false /\ pieces = [v]).

(** The frame cut after its row 55. *)
Definition first_56_rows (df : DataFrame) : DataFrame :=
  {| shape1 := shape1 df; rows := take 56 (rows df) |}.

(** A scanned row with nothing to extract and nothing to raise: its
    account cell is there and blank, or the management columns are there
    and its personnel cells stand for no name. *)
Definition row_quiet (df : DataFrame) (i : nat) : bool :=
  ((2 <=? shape1 df) && blank (cell (row_at df i) 1))
  || ((5 <=? shape1 df) &&
      match row_names df (row_at df i) with [] => true | _ => false end).

(** A sheet with no extractable row: an empty sheet, or a sheet with both
    header rows whose scanned rows are all quiet. *)
Definition quiet (df : DataFrame) : bool :=
  ((shape0 df =? 0) && (shape1 df =? 0))
  || ((2 <=? shape0 df) && forallb (row_quiet df) (range 2 (min 56 (shape0 df)))).

(** The [(person, account)] pairs of a frame, row by row. *)
Definition person_account_pairs (data_frame : list Rec) : list (string * string) :=
  map (fun r => (person r, account r)) data_frame.

(** ** The callers in [app.py] *)

(** [data[column]] on the frame behind a record list: the empty list is a
    frame without columns, on which any column access raises [KeyError]. *)
Definition column_access (data : list Rec) : Result unit :=
  match data with
  | [] => Raise KeyError
  | _ => Ok tt
  end.

(** Lines 593-612, the [try] block of the main program: the extraction,
    then the statistics printed from [data['account']] and the other
    columns; any exception leaves [data = pd.DataFrame()]. *)
Definition load_data (wb : list (string * DataFrame)) : list Rec :=
  match (data ← process_excel_file wb; _ ← column_access data; Ok data) with
  | Ok data => data
  | Raise _ => []
  end.

(** [frame.groupby(key).size().to_dict()] *)
Definition size_step (key : Rec -> string) (counts : gmap string nat) (r : Rec)
  : gmap string nat :=
  <[key r := S (default 0 (counts !! key r))]> counts.

Definition groupby_size (key : Rec -> string) (frame : list Rec) : gmap string nat :=
  fold_left (size_step key) frame ∅.

(** A group size as the dictionary holds it: a key that counts nothing
    has no entry. *)
Definition present_count (n : nat) : option nat :=
  match n with
  | 0 => None
  | S _ => Some n
  end.

(** The dictionary [account_details] hands to [jsonify] (lines 308-314). *)
Module Details.
Record t : Type := mk {
  account : string;
  total_people : nat;
  tech_breakdown : gmap string nat;
  role_breakdown : gmap string nat;
  people : list (string * string * string)
}.
End Details.

(** Lines 284-314: [account_details(account_name)] on the loaded [data]. *)
Definition account_details (data : list Rec) (account_name : string) : Result Details.t :=
  _ ← column_access data;
  let account_data := List.filter (fun r => String.eqb (account r) account_name) data in
  Ok {| Details.account := account_name;
        Details.total_people := length account_data;
        Details.tech_breakdown := groupby_size technology_area account_data;
        Details.role_breakdown := groupby_size role account_data;
        Details.people :=
          map (fun r => (person r, role r, technology_area r)) account_data |}.

(** The label a column takes from a header row [r]: that of the nearest
    column at or to the left of [col_idx] whose cell in row [r] is not
    blank, the empty string when there is none. *)
Definition nearest_label (df : DataFrame) (r col_idx : nat) (l : string) : Prop :=
  (exists c, c <= col_idx /\ label df r c = Some l /\
             forall c', c < c' <= col_idx -> label df r c' = None)
  \/ (l = "" /\ forall c, c <= col_idx -> label df r c = None).

(** ** Outcomes read as functions *)

(** What the row extractor of [app.py] does with a row, whatever the
    variables hold: the exception it raises, or the records it adds. *)
Definition row_outcome (df : DataFrame) (sheet_name : string)
    (role_categories roles : gmap nat string) (row : list Cell) : Result (list Rec) :=
  if shape1 df <? 2 then Raise KeyError
  else if blank (cell row 1) then Ok []
  else if shape1 df <? 5 then Raise KeyError
  else Ok (row_records df sheet_name role_categories roles row).

(** The outcomes of a loop put together: the first exception, or all the
    added records in order. *)
Fixpoint collect {A : Type} (f : A -> Result (list Rec)) (xs : list A)
  : Result (list Rec) :=
  match xs with
  | [] => Ok []
  | x :: xs' => r ← f x; rs ← collect f xs'; Ok (r ++ rs)
  end.

Definition sheet_outcome (sheet : string * DataFrame) : Result (list Rec) :=
  let '(sheet_name, df) := sheet in
  role_categories ← read_labels df 0;
  roles ← read_labels df 1;
  collect (fun i => row_outcome df sheet_name role_categories roles (row_at df i))
    (range 2 (min 56 (shape0 df))).

(** A loop body [body] acts as [f] says: it raises what [f] raises, or
    appends to [full_data] the records [f] gives. *)
Definition acts_as {A : Type} (body : Extr -> A -> Result Extr)
    (f : A -> Result (list Rec)) (x : A) : Prop :=
  forall st,
    match f x with
    | Ok recs => exists st', body st x = Ok st' /\ full_data st' = full_data st ++ recs
    | Raise e => body st x = Raise e
    end.

(** A text as [strip] leaves it. *)
Definition trimmed (s : string) : Prop := strip s = s.

(** What every extracted record satisfies. *)
Definition valid_record (sheet_names : list string) (r : Rec) : Prop :=
  (truthy (person r) = true /\ trimmed (person r) /\
   re_match_placeholder (person r) = false /\ contains ","%char (person r) = false) /\
  (truthy (account r) = true /\ trimmed (account r)) /\
  (trimmed (client_type r) /\ trimmed (leader r) /\ trimmed (atl_manager r) /\
   trimmed (role_category r) /\ trimmed (role r)) /\
  In (technology_area r) sheet_names /\
  allocation r = None.

(** [sum(account_personnel_count.values())] (line 169). *)
Definition sum_values (m : gmap string nat) : nat :=
  map_fold (fun _ v acc => v + acc) 0 m.

(** The number of records of an account. *)
Definition records_of (a : string) (recs : list Rec) : nat :=
  length (List.filter (fun r => String.eqb (account r) a) recs).

(** The tally agrees with the records. *)
Definition counts_agree (st : Extr) : Prop :=
  sum_values (account_personnel_count st) = length (full_data st) /\
  forall a, default 0 (account_personnel_count st !! a) = records_of a (full_data st).

(** A sheet without header: no cell of the frame is ["Coverage Name"]. *)
Definition headerless (df : DataFrame) : Prop :=
  forall i row c, rows df !! i = Some row -> c < shape1 df ->
                  cell row c <> Val "Coverage Name".

(** ** Concrete sheets *)

Definition demo_sheet : DataFrame :=
  {| shape1 := 9;
     rows := [ [NaN; NaN; NaN; NaN; NaN; NaN; NaN; Val "Cloud"; NaN];
               [NaN; Val "Coverage Name"; Val "Client Sub Type"; Val "Leader"; Val "ATL Manager";
                NaN; NaN; Val "AWS Lead"; Val "Sec Lead"];
               [NaN; Val "RBC"; Val "Enterprise"; Val "J.Smith"; NaN; NaN; NaN;
                Val "Alice, Bob"; Val "TBD"] ] |}.

(** A data row whose account cell is the placeholder TBD. *)
Definition tbd_account_sheet : DataFrame :=
  {| shape1 := 8;
     rows := [ []; []; [NaN; Val "TBD"; NaN; NaN; NaN; NaN; NaN; Val "Alice"] ] |}.

(** A data row whose account cell is whitespace only. *)
Definition blank_account_row : list Cell :=
  [NaN; Val "  "; Val "Enterprise"; NaN; NaN; NaN; NaN; Val "Alice"; Val "Bob"].

(** A personnel cell holding the lower-case text tbd, then a real name. *)
Definition lowercase_sheet : DataFrame :=
  {| shape1 := 9;
     rows := [ []; []; [NaN; Val "RBC"; NaN; NaN; NaN; NaN; NaN; Val "tbd"; Val "Alice"] ] |}.

(** A personnel cell holding hyphens, then a real name. *)
Definition hyphen_row : list Cell :=
  [NaN; Val "RBC"; NaN; NaN; NaN; NaN; NaN; Val " --- "; Val "Alice"].

(** The category row Data, blank, blank, Infra, blank. *)
Definition category_demo : DataFrame :=
  {| shape1 := 5; rows := [ [Val "Data"; NaN; NaN; Val "Infra"; NaN] ] |}.

(** A category row that starts with blanks. *)
Definition late_category : DataFrame :=
  {| shape1 := 3; rows := [ [NaN; Val "  "; Val "Infra"] ] |}.

(** A sheet holding a single title row. *)
Definition title_sheet : DataFrame :=
  {| shape1 := 1; rows := [ [Val "Coverage 2025"] ] |}.

(** An empty sheet. *)
Definition empty_sheet : DataFrame := {| shape1 := 0; rows := [] |}.

(** The two header rows and nothing else. *)
Definition headers_only : DataFrame :=
  {| shape1 := 3;
     rows := [ [NaN; NaN; Val "Cloud"]; [NaN; Val "Coverage Name"; Val "Lead"] ] |}.

(** Header rows, a row without account and a row with placeholders only. *)
Definition idle_sheet : DataFrame :=
  {| shape1 := 9;
     rows := [ []; [];
               [NaN; NaN; NaN; NaN; NaN; NaN; NaN; Val "Alice"; NaN];
               [NaN; Val "RBC"; NaN; NaN; NaN; NaN; NaN; Val "TBD"; Val "-, N/A"] ] |}.

(** Ann on three accounts (one of them twice), Bo on one. *)
Definition staff : list Rec :=
  [ mkRec "RBC" "" "" "" "Data" "" "Lead" "Ann" None;
    mkRec "TD" "" "" "" "Data" "" "Lead" "Ann" None;
    mkRec "RBC" "" "" "" "Cloud" "" "Architect" "Ann" (Some 1%float);
    mkRec "BMO" "" "" "" "Cloud" "" "Lead" "Ann" None;
    mkRec "BMO" "" "" "" "Cloud" "" "Architect" "Bo" None ].

(** A sheet as the label-search revision expects it (the rows below the
    first one, which names the columns): categories, then the header row. *)
Definition labelled_sheet : DataFrame :=
  {| shape1 := 7;
     rows := [ [NaN; NaN; NaN; NaN; NaN; Val "Cloud"; NaN];
               [NaN; Val "Coverage Name"; Val "Client Sub Type"; Val "Leader";
                Val "ATL Manager"; Val "AWS Lead"; Val "Sec Lead"];
               [NaN; Val "RBC"; Val "Enterprise"; Val "J.Smith"; NaN; Val "A.Lee"; Val "TBD"];
               [NaN; Val "TD"; NaN; NaN; NaN; NaN; Val "Ann, Bo"] ] |}.

(** A sheet with data and no header row. *)
Definition notes_sheet : DataFrame :=
  {| shape1 := 7;
     rows := [ [Val "Notes"; NaN; NaN; NaN; NaN; NaN; NaN];
               [NaN; Val "RBC"; Val "Enterprise"; Val "J.Smith"; NaN; Val "A.Lee"; Val "Cy"] ] |}.

(** Two rows that look like data rows, where the header rows are. *)
Definition data_on_top : DataFrame :=
  {| shape1 := 8;
     rows := [ [NaN; Val "RBC"; NaN; NaN; NaN; NaN; NaN; Val "Alice"];
               [NaN; Val "TD"; NaN; NaN; NaN; NaN; NaN; Val "Bob"] ] |}.

(** A labelled sheet whose header row has no manager column. *)
Definition no_manager_sheet : DataFrame :=
  {| shape1 := 4;
     rows := [ [NaN; Val "Coverage Name"; Val "Leader"; Val "AWS Lead"];
               [NaN; Val "RBC"; Val "J.Smith"; Val "A.Lee"] ] |}.

(** A role row with unlabelled personnel columns. *)
Definition sparse_roles : DataFrame :=
  {| shape1 := 9;
     rows := [ [];
               [NaN; Val "Coverage Name"; NaN; NaN; Val "ATL Manager"; NaN; NaN; NaN; Val "Lead"];
               [NaN; Val "RBC"; NaN; NaN; NaN; NaN; NaN; Val "Alice"; Val "Bob"] ] |}.

(** A sheet with a note on top, no header label, and one data row. *)
Definition unlabelled_sheet : DataFrame :=
  {| shape1 := 8;
     rows := [ [Val "Notes"]; [];
               [NaN; Val "RBC"; NaN; NaN; NaN; NaN; NaN; Val "Alice"] ] |}.

(** Fifty-six empty rows, then one populated row at index 56. *)
Definition tall_sheet : DataFrame :=
  {| shape1 := 8;
     rows := replicate 56 [] ++
             [ [NaN; Val "RBC"; NaN; NaN; NaN; NaN; NaN; Val "Alice"] ] |}.

Example placeholder_examples :
  map re_match_placeholder ["TBD"; "N/A"; "None"; "Select"; "-"; "---"; "tbd"; ""; "A-"; "TBD ";
                            String "-"%char (String "010"%char EmptyString)]
  = [true; true; true; true; true; true; false; false; false; false; true].
Proof. reflexivity. Qed.

Example split_examples :
  split ","%char "Alice, Bob" = ["Alice"; " Bob"] /\ split "/"%char "" = [""] /\
  split ","%char ",a,," = [""; "a"; ""; ""] /\ strip "  A.Lee  " = "A.Lee".
Proof. repeat split; reflexivity. Qed.

Example demo : process_excel_file [("Infrastructure", demo_sheet)] =
  Ok [ mkRec "RBC" "Enterprise" "J.Smith" "" "Infrastructure" "Cloud" "AWS Lead" "Alice" None;
       mkRec "RBC" "Enterprise" "J.Smith" "" "Infrastructure" "Cloud" "AWS Lead" "Bob" None ].
Proof. vm_compute. reflexivity. Qed.

(** ** Loops and exceptions *)

Lemma bind_Ok {A B : Type} (f : A -> Result B) (a : A) : (Ok a ≫= f) = f a.
Proof. reflexivity. Qed.

Lemma for_each_app {S A : Type} (body : S -> A -> Result S) (st : S) (xs ys : list A) :
  for_each body st (xs ++ ys) = (for_each body st xs ≫= fun st' => for_each body st' ys).
Proof.
  revert st. induction xs as [|x xs IH]; intros st; simpl; [reflexivity|].
  destruct (body st x) as [st'|e]; simpl; [apply IH | reflexivity].
Qed.

Lemma for_each_ext {S A : Type} (f g : S -> A -> Result S) (xs : list A) :
  (forall st x, In x xs -> f st x = g st x) ->
  forall st, for_each f st xs = for_each g st xs.
Proof.
  induction xs as [|x xs IH]; intros Hfg st; simpl; [reflexivity|].
  rewrite (Hfg st x) by (left; reflexivity).
  destruct (g st x) as [st'|e]; simpl; [|reflexivity].
  apply IH. intros st0 y Hy. apply Hfg. right. exact Hy.
Qed.

Lemma in_range (a b x : nat) : In x (range a b) <-> a <= x < b.
Proof. unfold range. rewrite in_seq. lia. Qed.

Lemma getitem_Ok (df : DataFrame) (row : list Cell) (c : nat) :
  c < shape1 df -> getitem df row c = Ok (cell row c).
Proof.
  intros Hc. unfold getitem.
  destruct (Nat.ltb_spec c (shape1 df)); [reflexivity | lia].
Qed.

(** ** The row extractor of [app.py] as a function *)

Section RowFacts.

Variables (df : DataFrame) (sheet_name : string).
Variables (role_categories roles : gmap nat string).

Lemma fold_add_person (a ct ld mg cat rl : string) (names : list string) (st : Extr) :
  let kept := List.filter (fun name => negb (re_match_placeholder name)) names in
  let st' := fold_left (add_person sheet_name a ct ld mg cat rl) names st in
  full_data st' = full_data st ++ map (new_record sheet_name a ct ld mg cat rl) kept /\
  row_personnel_count st' = row_personnel_count st + length kept /\
  sheet_personnel_count st' = sheet_personnel_count st + length kept.
Proof.
  cbv zeta. revert st. induction names as [|name names IH]; intros st.
  - simpl. rewrite app_nil_r. split; [reflexivity | lia].
  - cbn [fold_left List.filter].
    destruct (IH (add_person sheet_name a ct ld mg cat rl st name)) as (H1 & H2 & H3).
    rewrite H1, H2, H3. clear H1 H2 H3 IH.
    unfold add_person. destruct (re_match_placeholder name); simpl.
    + auto.
    + rewrite <- app_assoc. simpl. split; [reflexivity | lia].
Qed.

Lemma process_cell_spec (row : list Cell) (a ct ld mg : string) (st : Extr) (col_idx : nat) :
  col_idx < shape1 df ->
  exists st',
    process_cell df sheet_name role_categories roles row a ct ld mg st col_idx = Ok st' /\
    full_data st' = full_data st ++
      map (new_record sheet_name a ct ld mg (scan_left role_categories (range_down col_idx))
             (scan_left roles (range_down col_idx)))
          (cell_names (cell row col_idx)) /\
    row_personnel_count st' = row_personnel_count st + length (cell_names (cell row col_idx)) /\
    sheet_personnel_count st' = sheet_personnel_count st + length (cell_names (cell row col_idx)).
Proof.
  intros Hc. unfold process_cell, cell_names.
  rewrite (getitem_Ok _ _ _ Hc), bind_Ok.
  destruct (blank (cell row col_idx)).
  { exists st. simpl. rewrite app_nil_r. repeat split; lia. }
  destruct (re_match_placeholder (strip (str (cell row col_idx)))).
  { exists st. simpl. rewrite app_nil_r. repeat split; lia. }
  eexists. split; [reflexivity|]. apply fold_add_person.
Qed.

Lemma process_cells_spec (row : list Cell) (a ct ld mg : string) (cols : list nat) :
  (forall c, In c cols -> c < shape1 df) ->
  forall st, exists st',
    for_each (process_cell df sheet_name role_categories roles row a ct ld mg) st cols = Ok st' /\
    full_data st' = full_data st ++
      flat_map (fun col_idx =>
                  map (new_record sheet_name a ct ld mg (scan_left role_categories (range_down col_idx))
                         (scan_left roles (range_down col_idx)))
                      (cell_names (cell row col_idx))) cols /\
    row_personnel_count st' =
      row_personnel_count st + length (flat_map (fun col_idx => cell_names (cell row col_idx)) cols) /\
    sheet_personnel_count st' =
      sheet_personnel_count st + length (flat_map (fun col_idx => cell_names (cell row col_idx)) cols).
Proof.
  induction cols as [|c cols IH]; intros Hin st.
  - exists st. simpl. rewrite app_nil_r. repeat split; lia.
  - destruct (process_cell_spec row a ct ld mg st c) as (st1 & E1 & F1 & R1 & S1).
    { apply Hin. left. reflexivity. }
    destruct (IH (fun c0 H => Hin c0 (or_intror H)) st1) as (st2 & E2 & F2 & R2 & S2).
    exists st2. cbn [for_each flat_map]. rewrite E1, bind_Ok, E2.
    rewrite F2, F1, R2, R1, S2, S1, <- app_assoc, !length_app.
    repeat split; lia.
Qed.

Lemma management_field_Ok (row : list Cell) (c : nat) :
  c < shape1 df -> management_field df row c = Ok (field row c).
Proof.
  intros Hc. unfold management_field, field.
  rewrite (getitem_Ok _ _ _ Hc). reflexivity.
Qed.

Lemma process_row_blank (st : Extr) (row : list Cell) :
  2 <= shape1 df -> blank (cell row 1) = true ->
  process_row df sheet_name role_categories roles st row = Ok st.
Proof.
  intros Hw Hb. unfold process_row.
  rewrite getitem_Ok by lia. rewrite bind_Ok, Hb. reflexivity.
Qed.

Lemma process_row_spec (st : Extr) (row : list Cell) :
  5 <= shape1 df -> blank (cell row 1) = false ->
  exists st',
    process_row df sheet_name role_categories roles st row = Ok st' /\
    full_data st' = full_data st ++ row_records df sheet_name role_categories roles row /\
    row_personnel_count st' = length (row_names df row) /\
    sheet_personnel_count st' = sheet_personnel_count st + length (row_names df row).
Proof.
  intros Hw Hb. unfold process_row.
  rewrite getitem_Ok by lia. rewrite bind_Ok, Hb.
  rewrite !management_field_Ok by lia. rewrite !bind_Ok.
  match goal with |- context [for_each _ ?s _] => set (st0 := s) end.
  destruct (process_cells_spec row (strip (str (cell row 1))) (field row 2) (field row 3)
              (field row 4) (range 7 (shape1 df))) with (st := st0)
    as (st' & E & F & R & S).
  { intros c Hc. apply in_range in Hc. lia. }
  exists st'. split; [exact E|]. split; [exact F|]. split; [exact R | exact S].
Qed.

End RowFacts.

(** ** The header rows *)

Lemma not_blank (v : Cell) : negb (isna v) && truthy (strip (str v)) = negb (blank v).
Proof. unfold blank. destruct (isna v), (truthy (strip (str v))); reflexivity. Qed.

Lemma iloc_Ok (df : DataFrame) (r c : nat) :
  r < shape0 df -> c < shape1 df ->
  iloc df r c = Ok (cell (default [] (rows df !! r)) c).
Proof.
  intros Hr Hc. unfold iloc.
  destruct (Nat.ltb_spec r (shape0 df)); [|lia].
  destruct (Nat.ltb_spec c (shape1 df)); [reflexivity|lia].
Qed.

Lemma read_labels_prefix (df : DataFrame) (r n : nat) :
  r < shape0 df -> n <= shape1 df ->
  exists d, for_each (read_labels_step df r) ∅ (seq 0 n) = Ok d /\
            forall c, d !! c = if c <? n then label df r c else None.
Proof.
  intros Hr. induction n as [|n IH]; intros Hn.
  - exists ∅. split; [reflexivity|]. intros c. apply lookup_empty.
  - destruct IH as (d & E & Hd); [lia|].
    rewrite seq_S, for_each_app, E, bind_Ok. cbn [for_each Nat.add].
    unfold read_labels_step. rewrite iloc_Ok by lia. rewrite bind_Ok, not_blank.
    assert (Hlab : label df r n =
                   if negb (blank (cell (default [] (rows df !! r)) n))
                   then Some (strip (str (cell (default [] (rows df !! r)) n))) else None).
    { unfold label. destruct (Nat.ltb_spec n (shape1 df)); [reflexivity|lia]. }
    destruct (negb (blank (cell (default [] (rows df !! r)) n))); simpl.
    + eexists. split; [reflexivity|]. intros c.
      destruct (decide (n = c)) as [->|Hne].
      * rewrite lookup_insert_eq. destruct (Nat.ltb_spec c (S c)); [congruence|lia].
      * rewrite lookup_insert_ne by exact Hne. rewrite Hd.
        destruct (Nat.ltb_spec c n), (Nat.ltb_spec c (S n)); try reflexivity; lia.
    + exists d. split; [reflexivity|]. intros c. rewrite Hd.
      destruct (Nat.ltb_spec c n), (Nat.ltb_spec c (S n)); try reflexivity; try lia.
      assert (c = n) by lia. subst c. congruence.
Qed.

Lemma label_outside (df : DataFrame) (r c : nat) : shape1 df <= c -> label df r c = None.
Proof.
  intros Hc. unfold label. destruct (Nat.ltb_spec c (shape1 df)); [lia|reflexivity].
Qed.

Lemma read_labels_spec (df : DataFrame) (r : nat) :
  r < shape0 df ->
  exists d, read_labels df r = Ok d /\ forall c, d !! c = label df r c.
Proof.
  intros Hr. destruct (read_labels_prefix df r (shape1 df) Hr (le_n _)) as (d & E & Hd).
  exists d. unfold read_labels, range. rewrite Nat.sub_0_r. split; [exact E|].
  intros c. rewrite Hd. destruct (Nat.ltb_spec c (shape1 df)); [reflexivity|].
  symmetry. apply label_outside. lia.
Qed.

(** ** A sheet of [app.py] as a function *)

Lemma iloc_row_at (df : DataFrame) (i : nat) :
  i < shape0 df -> iloc_row df i = Ok (row_at df i).
Proof.
  intros Hi. unfold iloc_row, row_at.
  destruct (Nat.ltb_spec i (shape0 df)); [reflexivity|lia].
Qed.

Lemma process_row_idx_spec (df : DataFrame) (sheet_name : string)
    (role_categories roles : gmap nat string) (st : Extr) (i : nat) :
  5 <= shape1 df -> i < shape0 df ->
  exists st',
    process_row_idx df sheet_name role_categories roles st i = Ok st' /\
    full_data st' = full_data st ++ emitted_at df sheet_name role_categories roles i.
Proof.
  intros Hw Hi. unfold process_row_idx, emitted_at.
  rewrite (iloc_row_at _ _ Hi), bind_Ok.
  destruct (blank (cell (row_at df i) 1)) eqn:Hb.
  - exists st. rewrite process_row_blank by (lia || exact Hb).
    rewrite app_nil_r. split; reflexivity.
  - destruct (process_row_spec df sheet_name role_categories roles st (row_at df i) Hw Hb)
      as (st' & E & F & _).
    exists st'. split; [exact E | exact F].
Qed.

Lemma process_rows_spec (df : DataFrame) (sheet_name : string)
    (role_categories roles : gmap nat string) (idxs : list nat) :
  5 <= shape1 df -> (forall i, In i idxs -> i < shape0 df) ->
  forall st, exists st',
    for_each (process_row_idx df sheet_name role_categories roles) st idxs = Ok st' /\
    full_data st' = full_data st ++
      flat_map (emitted_at df sheet_name role_categories roles) idxs.
Proof.
  intros Hw. induction idxs as [|i idxs IH]; intros Hin st.
  - exists st. simpl. rewrite app_nil_r. split; reflexivity.
  - destruct (process_row_idx_spec df sheet_name role_categories roles st i Hw) as (st1 & E1 & F1).
    { apply Hin. left. reflexivity. }
    destruct (IH (fun j H => Hin j (or_intror H)) st1) as (st2 & E2 & F2).
    exists st2. cbn [for_each flat_map]. rewrite E1, bind_Ok, E2, F2, F1, <- app_assoc.
    split; reflexivity.
Qed.

Lemma process_sheet_spec (sheet_name : string) (df : DataFrame) (st : Extr) :
  2 <= shape0 df -> 5 <= shape1 df ->
  exists role_categories roles st',
    read_labels df 0 = Ok role_categories /\
    read_labels df 1 = Ok roles /\
    (forall c, role_categories !! c = label df 0 c) /\
    (forall c, roles !! c = label df 1 c) /\
    process_sheet st (sheet_name, df) = Ok st' /\
    full_data st' = full_data st ++
      flat_map (emitted_at df sheet_name role_categories roles) (range 2 (min 56 (shape0 df))).
Proof.
  intros Hh Hw.
  destruct (read_labels_spec df 0) as (rc & Erc & Hrc); [lia|].
  destruct (read_labels_spec df 1) as (rl & Erl & Hrl); [lia|].
  exists rc, rl. unfold process_sheet. rewrite Erc, bind_Ok, Erl, bind_Ok.
  match goal with |- context [for_each _ ?s _] => set (st0 := s) end.
  destruct (process_rows_spec df sheet_name rc rl (range 2 (min 56 (shape0 df))) Hw)
    with (st := st0) as (st' & E & F).
  { intros i Hi. apply in_range in Hi. lia. }
  exists st'. repeat split; assumption.
Qed.

(** ** No loss (C1) *)

Lemma row_records_persons (df : DataFrame) (sheet_name : string)
    (role_categories roles : gmap nat string) (row : list Cell) :
  map person (row_records df sheet_name role_categories roles row) = row_names df row.
Proof.
  unfold row_records, row_names.
  induction (range 7 (shape1 df)) as [|c cols IH]; [reflexivity|].
  cbn [flat_map]. rewrite map_app, IH. f_equal.
  unfold cell_records. rewrite map_map. simpl. apply map_id.
Qed.

(** C1, as stated, fails: the row at index 56 has an account and one name,
    and no record comes out of the sheet. *)
Lemma no_loss_fails_at_row_56 :
  exists row,
    rows tall_sheet !! 56 = Some row /\
    blank (cell row 1) = false /\
    row_names tall_sheet row = ["Alice"] /\
    process_excel_file [("Data", tall_sheet)] = Ok [].
Proof.
  eexists. split; [reflexivity|]. repeat split; vm_compute; reflexivity.
Qed.

(** C1 (amended): in a sheet that has its two header rows and the
    management columns, every row with index 2 to 55 whose account cell is
    not blank adds to [full_data] exactly one record per name of its
    personnel cells (columns 7 and up), in column order; the records of one
    cell share account, role and category, and the cell ["Alice, Bob"]
    stands for the two names Alice and Bob. *)
Theorem no_loss_rows_2_to_55 (sheet_name : string) (df : DataFrame) (st : Extr) :
  2 <= shape0 df -> 5 <= shape1 df ->
  exists role_categories roles st',
    read_labels df 0 = Ok role_categories /\
    read_labels df 1 = Ok roles /\
    process_sheet st (sheet_name, df) = Ok st' /\
    full_data st' = full_data st ++
      flat_map (emitted_at df sheet_name role_categories roles) (range 2 (min 56 (shape0 df))) /\
    (forall i row,
       2 <= i < 56 -> rows df !! i = Some row -> blank (cell row 1) = false ->
       In i (range 2 (min 56 (shape0 df))) /\
       (forall st0, exists st1,
          process_row_idx df sheet_name role_categories roles st0 i = Ok st1 /\
          full_data st1 = full_data st0 ++ emitted_at df sheet_name role_categories roles i /\
          row_personnel_count st1 = length (row_names df row)) /\
       length (emitted_at df sheet_name role_categories roles i) = length (row_names df row) /\
       map person (emitted_at df sheet_name role_categories roles i) = row_names df row /\
       emitted_at df sheet_name role_categories roles i =
         flat_map (cell_records sheet_name role_categories roles row) (range 7 (shape1 df)) /\
       (forall col_idx r1 r2,
          In r1 (cell_records sheet_name role_categories roles row col_idx) ->
          In r2 (cell_records sheet_name role_categories roles row col_idx) ->
          account r1 = account r2 /\ role r1 = role r2 /\
          role_category r1 = role_category r2)) /\
    cell_names (Val "Alice, Bob") = ["Alice"; "Bob"].
Proof.
  intros Hh Hw.
  destruct (process_sheet_spec sheet_name df st Hh Hw)
    as (rc & rl & st' & Erc & Erl & _ & _ & E & F).
  exists rc, rl, st'. do 4 (split; [assumption|]). split; [|reflexivity].
  intros i row Hi Hrow Hb.
  pose proof (lookup_lt_Some _ _ _ Hrow) as Hlt. fold (shape0 df) in Hlt.
  assert (Hat : row_at df i = row) by (unfold row_at; rewrite Hrow; reflexivity).
  assert (Hem : emitted_at df sheet_name rc rl i = row_records df sheet_name rc rl row).
  { unfold emitted_at. rewrite Hat, Hb. reflexivity. }
  split; [apply in_range; lia|]. split.
  { intros st0. unfold process_row_idx. rewrite (iloc_row_at _ _ Hlt), bind_Ok, Hat.
    destruct (process_row_spec df sheet_name rc rl st0 row Hw Hb) as (st1 & E1 & F1 & R1 & _).
    exists st1. rewrite Hem. repeat split; assumption. }
  rewrite Hem. split.
  { rewrite <- (row_records_persons df sheet_name rc rl row). symmetry. apply length_map. }
  split; [apply row_records_persons|]. split; [reflexivity|].
  intros c r1 r2 H1 H2. unfold cell_records in H1, H2.
  apply in_map_iff in H1 as (n1 & <- & _). apply in_map_iff in H2 as (n2 & <- & _).
  repeat split.
Qed.

Lemma no_loss_rows_2_to_55_witness :
  2 <= shape0 demo_sheet /\ 5 <= shape1 demo_sheet /\
  exists role_categories roles st',
    read_labels demo_sheet 0 = Ok role_categories /\
    read_labels demo_sheet 1 = Ok roles /\
    process_sheet initial ("Infrastructure", demo_sheet) = Ok st' /\
    full_data st' = full_data initial ++
      flat_map (emitted_at demo_sheet "Infrastructure" role_categories roles)
        (range 2 (min 56 (shape0 demo_sheet))).
Proof.
  assert (H0 : 2 <= shape0 demo_sheet) by (vm_compute; lia).
  assert (H1 : 5 <= shape1 demo_sheet) by (vm_compute; lia).
  split; [exact H0|]. split; [exact H1|].
  destruct (no_loss_rows_2_to_55 "Infrastructure" demo_sheet initial H0 H1)
    as (rc & rl & st' & A & B & C & D & _).
  exists rc, rl, st'. repeat split; assumption.
Defined.

(** ** Trimming *)

Lemma rstrip_head (c : ascii) (s : string) :
  isspace c = false -> rstrip (String c s) = String c (rstrip s).
Proof. intros Hc. simpl. rewrite Hc. destruct (rstrip s); reflexivity. Qed.

Lemma lstrip_cases (s : string) :
  lstrip s = EmptyString \/
  exists c t, lstrip s = String c t /\ isspace c = false.
Proof.
  induction s as [|c s IH]; simpl; [left; reflexivity|].
  destruct (isspace c) eqn:E; [exact IH|]. right. exists c, s. split; [reflexivity|exact E].
Qed.

Lemma lstrip_empty (s : string) : lstrip s = EmptyString <-> whitespace_only s = true.
Proof.
  induction s as [|c s IH]; simpl; [tauto|].
  destruct (isspace c); simpl; [exact IH|]. split; discriminate.
Qed.

Lemma strip_empty (s : string) : strip s = EmptyString <-> whitespace_only s = true.
Proof.
  rewrite <- lstrip_empty. unfold strip.
  destruct (lstrip_cases s) as [E|(c & t & E & Hc)]; rewrite E.
  - simpl. tauto.
  - rewrite (rstrip_head _ _ Hc). split; discriminate.
Qed.

Lemma blank_iff (v : Cell) :
  blank v = true <-> v = NaN \/ exists s, v = Val s /\ whitespace_only s = true.
Proof.
  destruct v as [|s]; unfold blank; simpl.
  - split; [left; reflexivity | reflexivity].
  - split.
    + intros H. right. exists s. split; [reflexivity|]. apply strip_empty.
      destruct (strip s); [reflexivity | discriminate].
    + intros [H|(s' & [= <-] & H)]; [discriminate|].
      apply strip_empty in H. rewrite H. reflexivity.
Qed.

(** ** Skip on missing account (C2) *)

(** C2, as stated, fails: a row whose account cell holds the placeholder
    TBD is extracted, with TBD as its account. *)
Lemma placeholder_account_not_skipped :
  process_excel_file [("Data", tbd_account_sheet)] =
  Ok [ mkRec "TBD" "" "" "" "Data" "" "" "Alice" None ].
Proof. vm_compute. reflexivity. Qed.

(** C2 (amended): a data row whose account cell (column 1) is missing or
    whitespace only is skipped by the row extractor: nothing is added and
    no variable changes, whatever the personnel cells hold; a placeholder
    in the account cell does not skip the row. *)
Theorem skip_on_missing_account (df : DataFrame) (sheet_name : string)
    (role_categories roles : gmap nat string) (st : Extr) (row : list Cell) :
  2 <= shape1 df ->
  (cell row 1 = NaN \/ exists s, cell row 1 = Val s /\ whitespace_only s = true) ->
  process_row df sheet_name role_categories roles st row = Ok st.
Proof.
  intros Hw Hb. apply blank_iff in Hb. unfold process_row.
  rewrite getitem_Ok by lia. rewrite bind_Ok, Hb. reflexivity.
Qed.

Lemma skip_on_missing_account_witness :
  2 <= shape1 lowercase_sheet /\
  (cell blank_account_row 1 = NaN \/
   exists s, cell blank_account_row 1 = Val s /\ whitespace_only s = true) /\
  process_row lowercase_sheet "Data" ∅ ∅ initial blank_account_row = Ok initial.
Proof.
  assert (H0 : 2 <= shape1 lowercase_sheet) by (simpl; lia).
  assert (H1 : cell blank_account_row 1 = NaN \/
               exists s, cell blank_account_row 1 = Val s /\ whitespace_only s = true).
  { right. exists "  ". split; reflexivity. }
  split; [exact H0|]. split; [exact H1|].
  exact (skip_on_missing_account lowercase_sheet "Data" ∅ ∅ initial blank_account_row H0 H1).
Defined.

(** ** Placeholder exclusion (C3) *)

Lemma all_hyphens_hyphens (n : nat) : all_hyphens (hyphens n) = true.
Proof. induction n as [|n IH]; [reflexivity|]. simpl. exact IH. Qed.

Lemma is_placeholder_match (s : string) :
  is_placeholder s -> re_match_placeholder s = true.
Proof.
  unfold re_match_placeholder, placeholder_body.
  intros [->|[->|[->|[->|(n & ->)]]]]; try reflexivity.
  rewrite all_hyphens_hyphens. cbn [hyphens truthy andb].
  rewrite !orb_true_r. reflexivity.
Qed.

Lemma process_cell_row_ext (df : DataFrame) (sheet_name : string)
    (role_categories roles : gmap nat string) (row row' : list Cell)
    (a ct ld mg : string) (st : Extr) (col_idx : nat) :
  cell row col_idx = cell row' col_idx ->
  process_cell df sheet_name role_categories roles row a ct ld mg st col_idx =
  process_cell df sheet_name role_categories roles row' a ct ld mg st col_idx.
Proof. intros H. unfold process_cell, getitem. rewrite H. reflexivity. Qed.

Lemma cell_insert_ne (row : list Cell) (i c : nat) (v : Cell) :
  i <> c -> cell (<[i := v]> row) c = cell row c.
Proof. intros H. unfold cell. rewrite list_lookup_insert_ne by exact H. reflexivity. Qed.

Lemma cell_insert_eq (row : list Cell) (i : nat) (s : string) :
  cell row i = Val s -> cell (<[i := NaN]> row) i = NaN.
Proof.
  unfold cell. intros H. destruct (row !! i) as [v|] eqn:E; [|discriminate].
  rewrite list_lookup_insert_eq by (eapply lookup_lt_Some; exact E). reflexivity.
Qed.

Lemma process_cell_skip (df : DataFrame) (sheet_name : string)
    (role_categories roles : gmap nat string) (row : list Cell)
    (a ct ld mg : string) (st : Extr) (col_idx : nat) :
  col_idx < shape1 df ->
  blank (cell row col_idx) = true \/
  re_match_placeholder (strip (str (cell row col_idx))) = true ->
  process_cell df sheet_name role_categories roles row a ct ld mg st col_idx = Ok st.
Proof.
  intros Hc H. unfold process_cell. rewrite (getitem_Ok _ _ _ Hc), bind_Ok.
  destruct (blank (cell row col_idx)); [reflexivity|].
  destruct H as [H|H]; [discriminate|]. rewrite H. reflexivity.
Qed.

(** C3, as stated, fails: the match is case-sensitive, so the cell tbd is
    taken for a person. *)
Lemma lowercase_placeholder_kept :
  process_excel_file [("Data", lowercase_sheet)] =
  Ok [ mkRec "RBC" "" "" "" "Data" "" "" "tbd" None;
       mkRec "RBC" "" "" "" "Data" "" "" "Alice" None ].
Proof. vm_compute. reflexivity. Qed.

(** C3 (amended): placeholder exclusion is case-sensitive over the fixed
    set. A personnel cell whose trimmed value is exactly TBD, N/A, None,
    Select or a string of one or more hyphens stands for no name, its
    column step leaves every variable unchanged and raises nothing, and
    the row gives the same outcome as with that cell missing, whatever the
    other cells hold. *)
Theorem placeholder_cell_excluded (df : DataFrame) (sheet_name : string)
    (role_categories roles : gmap nat string) (row : list Cell)
    (a ct ld mg : string) (st : Extr) (col_idx : nat) (s : string) :
  col_idx < shape1 df -> cell row col_idx = Val s -> is_placeholder (strip s) ->
  process_cell df sheet_name role_categories roles row a ct ld mg st col_idx = Ok st /\
  cell_names (cell row col_idx) = [] /\
  (7 <= col_idx -> forall st0,
     process_row df sheet_name role_categories roles st0 row =
     process_row df sheet_name role_categories roles st0 (<[col_idx := NaN]> row)).
Proof.
  intros Hc Hv Hp. apply is_placeholder_match in Hp.
  assert (Hn : cell_names (cell row col_idx) = []).
  { unfold cell_names. rewrite Hv. simpl str. rewrite Hp.
    destruct (blank (Val s)); reflexivity. }
  split; [|split; [exact Hn|]].
  - apply process_cell_skip; [exact Hc |]. right. rewrite Hv. exact Hp.
  - intros H7 st0. unfold process_row, management_field, getitem.
    rewrite !(cell_insert_ne row col_idx) by lia.
    destruct (1 <? shape1 df); [|reflexivity]. rewrite !bind_Ok.
    destruct (blank (cell row 1)); [reflexivity|].
    destruct (2 <? shape1 df); [|reflexivity]. rewrite !bind_Ok.
    destruct (3 <? shape1 df); [|reflexivity]. rewrite !bind_Ok.
    destruct (4 <? shape1 df); [|reflexivity]. rewrite !bind_Ok.
    apply for_each_ext. intros st1 c Hin.
    destruct (decide (col_idx = c)) as [<-|Hne].
    + rewrite process_cell_skip; [| exact Hc | right; rewrite Hv; exact Hp].
      symmetry. apply process_cell_skip; [exact Hc |].
      rewrite (cell_insert_eq _ _ _ Hv). left. reflexivity.
    + apply process_cell_row_ext. symmetry. apply cell_insert_ne. exact Hne.
Qed.

Lemma placeholder_cell_excluded_witness :
  7 < shape1 lowercase_sheet /\ cell hyphen_row 7 = Val " --- " /\
  is_placeholder (strip " --- ") /\
  process_cell lowercase_sheet "Data" ∅ ∅ hyphen_row "RBC" "" "" "" initial 7 = Ok initial.
Proof.
  assert (H0 : 7 < shape1 lowercase_sheet) by (simpl; lia).
  assert (H1 : cell hyphen_row 7 = Val " --- ") by reflexivity.
  assert (H2 : is_placeholder (strip " --- ")).
  { right. right. right. right. exists 2. reflexivity. }
  split; [exact H0|]. split; [exact H1|]. split; [exact H2|].
  exact (proj1 (placeholder_cell_excluded lowercase_sheet "Data" ∅ ∅ hyphen_row
                  "RBC" "" "" "" initial 7 " --- " H0 H1 H2)).
Defined.

(** ** Category inheritance (C5) *)

Lemma range_down_S (c : nat) : range_down (S c) = S c :: range_down c.
Proof. unfold range_down. rewrite (seq_S (S c)), rev_app_distr. reflexivity. Qed.

Lemma scan_left_nearest (d : gmap nat string) (col_idx : nat) :
  (exists c, c <= col_idx /\ d !! c = Some (scan_left d (range_down col_idx)) /\
             forall c', c < c' <= col_idx -> d !! c' = None)
  \/ (scan_left d (range_down col_idx) = "" /\ forall c, c <= col_idx -> d !! c = None).
Proof.
  induction col_idx as [|n IH].
  - change (range_down 0) with [0]. cbn [scan_left]. destruct (d !! 0) as [l|] eqn:E.
    + left. exists 0. split; [lia|]. split; [exact E|]. intros c' Hc'. lia.
    + right. split; [reflexivity|]. intros c Hc. replace c with 0 by lia. exact E.
  - rewrite range_down_S. cbn [scan_left]. destruct (d !! S n) as [l|] eqn:E.
    + left. exists (S n). split; [lia|]. split; [exact E|]. intros c' Hc'. lia.
    + destruct IH as [(c & Hc & Hl & Hnone)|(Hs & Hnone)].
      * left. exists c. split; [lia|]. split; [exact Hl|].
        intros c' Hc'. destruct (decide (c' = S n)) as [->|]; [exact E|].
        apply Hnone. lia.
      * right. split; [exact Hs|]. intros c Hc.
        destruct (decide (c = S n)) as [->|]; [exact E|]. apply Hnone. lia.
Qed.

Lemma scan_left_category (df : DataFrame) (role_categories : gmap nat string) (col_idx : nat) :
  (forall c, role_categories !! c = label df 0 c) ->
  category_of df col_idx (scan_left role_categories (range_down col_idx)).
Proof.
  intros Hd. unfold category_of.
  destruct (scan_left_nearest role_categories col_idx) as [(c & Hc & Hl & Hn)|(Hs & Hn)].
  - left. exists c. split; [exact Hc|]. split; [rewrite <- Hd; exact Hl|].
    intros c' Hc'. rewrite <- Hd. apply Hn. exact Hc'.
  - right. split; [exact Hs|]. intros c Hc. rewrite <- Hd. apply Hn. exact Hc.
Qed.

(** C5: the category dictionary read from row 0 resolves every column to
    the first non-blank category label met scanning leftwards from that
    column, itself included, and to the empty string when there is none;
    every record a personnel cell adds carries the category resolved for
    the cell's own column. With the category row Data, blank, blank,
    Infra, blank, column 2 resolves to Data and column 4 to Infra. *)
Theorem category_inheritance (df : DataFrame) (sheet_name : string) :
  1 <= shape0 df ->
  (exists role_categories,
     read_labels df 0 = Ok role_categories /\
     (forall col_idx,
        category_of df col_idx (scan_left role_categories (range_down col_idx))) /\
     (forall roles row a ct ld mg st col_idx,
        col_idx < shape1 df ->
        exists st' recs,
          process_cell df sheet_name role_categories roles row a ct ld mg st col_idx = Ok st' /\
          full_data st' = full_data st ++ recs /\
          length recs = length (cell_names (cell row col_idx)) /\
          Forall (fun r => category_of df col_idx (role_category r)) recs)) /\
  resolved_category category_demo 2 = Ok "Data" /\
  resolved_category category_demo 4 = Ok "Infra" /\
  resolved_category late_category 1 = Ok "".
Proof.
  intros Hh. split; [|repeat split; vm_compute; reflexivity].
  destruct (read_labels_spec df 0) as (rc & E & Hd); [lia|].
  exists rc. split; [exact E|]. split.
  - intros c. apply scan_left_category. exact Hd.
  - intros roles row a ct ld mg st c Hc.
    destruct (process_cell_spec df sheet_name rc roles row a ct ld mg st c Hc)
      as (st' & E' & F & _).
    exists st'. eexists. split; [exact E'|]. split; [exact F|].
    split; [apply length_map|].
    apply List.Forall_forall. intros r Hr. apply in_map_iff in Hr as (n & <- & _).
    simpl. apply scan_left_category. exact Hd.
Qed.

Lemma category_inheritance_witness :
  1 <= shape0 demo_sheet /\
  exists role_categories,
    read_labels demo_sheet 0 = Ok role_categories /\
    category_of demo_sheet 8 (scan_left role_categories (range_down 8)).
Proof.
  assert (H0 : 1 <= shape0 demo_sheet) by (vm_compute; lia).
  split; [exact H0|].
  destruct (category_inheritance demo_sheet "Infrastructure" H0) as ((rc & E & Hc & _) & _).
  exists rc. split; [exact E | apply Hc].
Defined.

(** ** Name splitting (C6) *)

Lemma split_not_nil (sep : ascii) (s : string) : split sep s <> [].
Proof.
  destruct s as [|c s]; simpl; [discriminate|].
  destruct (Ascii.eqb c sep); [discriminate|].
  destruct (split sep s); discriminate.
Qed.

Lemma join_cons_char (sep c : ascii) (p : string) (ps : list string) :
  join sep (String c p :: ps) = String c (join sep (p :: ps)).
Proof. destruct ps; reflexivity. Qed.

Lemma join_split (sep : ascii) (s : string) : join sep (split sep s) = s.
Proof.
  induction s as [|c s IH]; [reflexivity|]. simpl.
  destruct (Ascii.eqb_spec c sep) as [->|Hne].
  - pose proof (split_not_nil sep s) as Hnil.
    destruct (split sep s) as [|p ps]; [congruence|].
    change (join sep ("" :: p :: ps)) with (String sep (join sep (p :: ps))).
    rewrite IH. reflexivity.
  - pose proof (split_not_nil sep s) as Hnil.
    destruct (split sep s) as [|p ps]; [congruence|].
    rewrite join_cons_char, IH. reflexivity.
Qed.

Lemma split_no_sep (sep : ascii) (s : string) :
  Forall (fun piece => contains sep piece = false) (split sep s).
Proof.
  induction s as [|c s IH]; simpl.
  - constructor; [reflexivity | constructor].
  - destruct (Ascii.eqb_spec c sep) as [->|Hne].
    + constructor; [reflexivity | exact IH].
    + destruct (split sep s) as [|p ps].
      * constructor; [|constructor]. simpl.
        destruct (Ascii.eqb_spec c sep); [contradiction | reflexivity].
      * inversion IH as [|? ? Hp Hps]; subst. constructor; [|exact Hps]. simpl.
        destruct (Ascii.eqb_spec c sep); [contradiction | exact Hp].
Qed.

Lemma split_split_by (sep : ascii) (s : string) : split_by sep s (split sep s).
Proof.
  split; [apply split_not_nil|]. split; [apply join_split | apply split_no_sep].
Qed.

Lemma rstrip_cons (c : ascii) (s : string) :
  rstrip (String c s) =
  match rstrip s with
  | EmptyString => if isspace c then EmptyString else String c EmptyString
  | String d r => String c (String d r)
  end.
Proof. reflexivity. Qed.

Lemma rstrip_idem (s : string) : rstrip (rstrip s) = rstrip s.
Proof.
  induction s as [|c s IH]; [reflexivity|]. rewrite rstrip_cons.
  destruct (rstrip s) as [|d r] eqn:E.
  - destruct (isspace c) eqn:Hc; [reflexivity|]. rewrite rstrip_cons. simpl. rewrite Hc.
    reflexivity.
  - rewrite rstrip_cons, IH. reflexivity.
Qed.

Lemma strip_idem (s : string) : strip (strip s) = strip s.
Proof.
  unfold strip. destruct (lstrip_cases s) as [E|(c & t & E & Hc)]; rewrite E.
  - reflexivity.
  - rewrite (rstrip_head _ _ Hc). cbn [lstrip]. rewrite Hc.
    rewrite (rstrip_head _ _ Hc), rstrip_idem. reflexivity.
Qed.

Lemma filter_map_comm {A B : Type} (f : B -> bool) (g : A -> B) (l : list A) :
  List.filter f (map g l) = map g (List.filter (fun x => f (g x)) l).
Proof.
  induction l as [|x l IH]; [reflexivity|]. simpl.
  destruct (f (g x)); simpl; rewrite IH; reflexivity.
Qed.

Lemma split_names_pieces (v : string) :
  truthy v = true -> strip v = v ->
  exists pieces, pieces_of v pieces /\
                 split_names v = List.filter truthy (map strip pieces).
Proof.
  intros Hv Hs. unfold split_names, pieces_of.
  destruct (contains ","%char v) eqn:Ec.
  { exists (split ","%char v). split.
    - left. split; [reflexivity | apply split_split_by].
    - symmetry. apply filter_map_comm. }
  destruct (contains "/"%char v) eqn:Es.
  { exists (split "/"%char v). split.
    - right. left. split; [reflexivity|]. split; [reflexivity | apply split_split_by].
    - symmetry. apply filter_map_comm. }
  exists [v]. split.
  - right. right. repeat split.
  - simpl. rewrite Hs, Hv. reflexivity.
Qed.

(** C6: for a personnel cell that is neither blank nor a placeholder, the
    trimmed value is cut at its commas when it has one, otherwise at its
    slashes when it has one, otherwise kept whole; the pieces are trimmed,
    the empty ones and the placeholders are dropped, and one record per
    remaining piece is added, in order; the step raises nothing, also when
    every piece is dropped. *)
Theorem name_splitting (df : DataFrame) (sheet_name : string)
    (role_categories roles : gmap nat string) (row : list Cell)
    (a ct ld mg : string) (st : Extr) (col_idx : nat) :
  col_idx < shape1 df ->
  blank (cell row col_idx) = false ->
  re_match_placeholder (strip (str (cell row col_idx))) = false ->
  (exists pieces st' recs,
     pieces_of (strip (str (cell row col_idx))) pieces /\
     process_cell df sheet_name role_categories roles row a ct ld mg st col_idx = Ok st' /\
     full_data st' = full_data st ++ recs /\
     map person recs =
       List.filter (fun name => negb (re_match_placeholder name))
         (List.filter truthy (map strip pieces))) /\
  cell_names (Val "Alice, Bob") = ["Alice"; "Bob"] /\
  cell_names (Val "A.Lee / , B/C") = ["A.Lee /"; "B/C"] /\
  cell_names (Val " Ann/ /Bo ") = ["Ann"; "Bo"] /\
  cell_names (Val "TBD, -") = [].
Proof.
  intros Hc Hb Hp. split; [|repeat split; reflexivity].
  assert (Hv : truthy (strip (str (cell row col_idx))) = true).
  { unfold blank in Hb. destruct (truthy (strip (str (cell row col_idx)))); [reflexivity|].
    destruct (isna (cell row col_idx)); discriminate. }
  destruct (split_names_pieces _ Hv (strip_idem _)) as (pieces & Hpieces & Hnames).
  destruct (process_cell_spec df sheet_name role_categories roles row a ct ld mg st col_idx Hc)
    as (st' & E & F & _).
  exists pieces, st'. eexists. split; [exact Hpieces|]. split; [exact E|].
  split; [exact F|]. rewrite map_map. simpl. rewrite map_id.
  unfold cell_names. rewrite Hb, Hp, Hnames. reflexivity.
Qed.

Lemma name_splitting_witness :
  7 < shape1 demo_sheet /\
  blank (cell (row_at demo_sheet 2) 7) = false /\
  re_match_placeholder (strip (str (cell (row_at demo_sheet 2) 7))) = false /\
  exists pieces st' recs,
    pieces_of (strip (str (cell (row_at demo_sheet 2) 7))) pieces /\
    process_cell demo_sheet "Infrastructure" ∅ ∅ (row_at demo_sheet 2) "RBC" "" "" ""
      initial 7 = Ok st' /\
    full_data st' = full_data initial ++ recs /\
    map person recs =
      List.filter (fun name => negb (re_match_placeholder name))
        (List.filter truthy (map strip pieces)).
Proof.
  assert (H0 : 7 < shape1 demo_sheet) by (simpl; lia).
  assert (H1 : blank (cell (row_at demo_sheet 2) 7) = false) by reflexivity.
  assert (H2 : re_match_placeholder (strip (str (cell (row_at demo_sheet 2) 7))) = false)
    by reflexivity.
  split; [exact H0|]. split; [exact H1|]. split; [exact H2|].
  exact (proj1 (name_splitting demo_sheet "Infrastructure" ∅ ∅ (row_at demo_sheet 2)
                  "RBC" "" "" "" initial 7 H0 H1 H2)).
Defined.

(** ** The row limit (C10) *)

Lemma process_cell_shape (df df' : DataFrame) (sheet_name : string)
    (role_categories roles : gmap nat string) (row : list Cell)
    (a ct ld mg : string) (st : Extr) (col_idx : nat) :
  shape1 df = shape1 df' ->
  process_cell df sheet_name role_categories roles row a ct ld mg st col_idx =
  process_cell df' sheet_name role_categories roles row a ct ld mg st col_idx.
Proof. intros H. unfold process_cell, getitem. rewrite H. reflexivity. Qed.

Lemma process_row_shape (df df' : DataFrame) (sheet_name : string)
    (role_categories roles : gmap nat string) (st : Extr) (row : list Cell) :
  shape1 df = shape1 df' ->
  process_row df sheet_name role_categories roles st row =
  process_row df' sheet_name role_categories roles st row.
Proof.
  intros H. unfold process_row, management_field, getitem. rewrite H.
  destruct (1 <? shape1 df'); [|reflexivity]. rewrite !bind_Ok.
  destruct (blank (cell row 1)); [reflexivity|].
  destruct (2 <? shape1 df'); [|reflexivity]. rewrite !bind_Ok.
  destruct (3 <? shape1 df'); [|reflexivity]. rewrite !bind_Ok.
  destruct (4 <? shape1 df'); [|reflexivity]. rewrite !bind_Ok.
  apply for_each_ext. intros st1 c _. apply process_cell_shape. exact H.
Qed.

Lemma first_56_lookup (df : DataFrame) (i : nat) :
  i < 56 -> rows (first_56_rows df) !! i = rows df !! i.
Proof. intros Hi. unfold first_56_rows. cbn [rows]. apply lookup_take_lt. exact Hi. Qed.

Lemma first_56_shape0 (df : DataFrame) : shape0 (first_56_rows df) = min 56 (shape0 df).
Proof. unfold shape0, first_56_rows. cbn [rows]. apply length_take. Qed.

Lemma read_labels_first_56 (df : DataFrame) (r : nat) :
  r < 56 -> read_labels (first_56_rows df) r = read_labels df r.
Proof.
  intros Hr. unfold read_labels. change (shape1 (first_56_rows df)) with (shape1 df).
  apply for_each_ext. intros d c _. unfold read_labels_step, iloc.
  rewrite first_56_shape0, (first_56_lookup _ _ Hr).
  change (shape1 (first_56_rows df)) with (shape1 df).
  replace (r <? min 56 (shape0 df)) with (r <? shape0 df); [reflexivity|].
  destruct (Nat.ltb_spec r (shape0 df)), (Nat.ltb_spec r (min 56 (shape0 df)));
    try reflexivity; lia.
Qed.

Lemma process_sheet_first_56 (st : Extr) (sheet_name : string) (df : DataFrame) :
  process_sheet st (sheet_name, first_56_rows df) = process_sheet st (sheet_name, df).
Proof.
  unfold process_sheet. rewrite !read_labels_first_56 by lia.
  destruct (read_labels df 0) as [rc|e]; [|reflexivity]. rewrite bind_Ok.
  destruct (read_labels df 1) as [rl|e]; [|reflexivity]. rewrite bind_Ok.
  rewrite first_56_shape0, Nat.min_assoc, Nat.min_id.
  apply for_each_ext. intros st1 i Hi. apply in_range in Hi.
  unfold process_row_idx, iloc_row.
  rewrite first_56_shape0, (first_56_lookup df i) by lia.
  replace (i <? min 56 (shape0 df)) with (i <? shape0 df).
  - destruct (i <? shape0 df); [|reflexivity]. rewrite !bind_Ok.
    apply process_row_shape. reflexivity.
  - destruct (Nat.ltb_spec i (shape0 df)), (Nat.ltb_spec i (min 56 (shape0 df)));
      try reflexivity; lia.
Qed.

(** C10: only the rows with index 2 to 55 of a sheet are scanned for data.
    Cutting every sheet after its row 55 changes neither the records nor
    an exception of the extraction, so no record comes from a row with
    index 56 or more; the sheet whose only populated row is row 56 yields
    nothing, and neither do populated rows 0 and 1. *)
Theorem rows_from_56_ignored (wb : list (string * DataFrame)) :
  process_excel_file wb =
    process_excel_file (map (fun sheet => (fst sheet, first_56_rows (snd sheet))) wb) /\
  process_excel_file [("Data", tall_sheet)] = Ok [] /\
  process_excel_file [("Data", data_on_top)] = Ok [].
Proof.
  split; [|split; vm_compute; reflexivity].
  unfold process_excel_file. f_equal. generalize initial.
  induction wb as [|[sheet_name df] wb IH]; intros st; [reflexivity|].
  cbn [map for_each fst snd]. rewrite process_sheet_first_56.
  destruct (process_sheet st (sheet_name, df)) as [st'|e]; [|reflexivity].
  rewrite !bind_Ok. apply IH.
Qed.

(** ** Empty input (C8) *)

Lemma row_quiet_emits_nothing (df : DataFrame) (sheet_name : string)
    (role_categories roles : gmap nat string) (st : Extr) (i : nat) :
  i < shape0 df -> row_quiet df i = true ->
  exists st', process_row_idx df sheet_name role_categories roles st i = Ok st' /\
              full_data st' = full_data st.
Proof.
  intros Hi Hq. unfold process_row_idx. rewrite (iloc_row_at _ _ Hi), bind_Ok.
  unfold row_quiet in Hq. apply orb_true_iff in Hq as [Hq|Hq];
    apply andb_true_iff in Hq as [Hw Hq]; apply Nat.leb_le in Hw.
  - exists st. split; [|reflexivity]. apply process_row_blank; assumption.
  - destruct (blank (cell (row_at df i) 1)) eqn:Hb.
    + exists st. split; [|reflexivity]. apply process_row_blank; [lia | exact Hb].
    + destruct (process_row_spec df sheet_name role_categories roles st (row_at df i) Hw Hb)
        as (st' & E & F & _).
      exists st'. split; [exact E|]. rewrite F.
      pose proof (row_records_persons df sheet_name role_categories roles (row_at df i)) as Hp.
      destruct (row_names df (row_at df i)); [|discriminate].
      destruct (row_records df sheet_name role_categories roles (row_at df i));
        [apply app_nil_r | discriminate].
Qed.

Lemma quiet_rows_emit_nothing (df : DataFrame) (sheet_name : string)
    (role_categories roles : gmap nat string) (idxs : list nat) :
  (forall i, In i idxs -> i < shape0 df) -> forallb (row_quiet df) idxs = true ->
  forall st, exists st',
    for_each (process_row_idx df sheet_name role_categories roles) st idxs = Ok st' /\
    full_data st' = full_data st.
Proof.
  induction idxs as [|i idxs IH]; intros Hin Hq st.
  - exists st. split; reflexivity.
  - cbn [forallb] in Hq. apply andb_true_iff in Hq as [Hi Hq].
    destruct (row_quiet_emits_nothing df sheet_name role_categories roles st i) as (st1 & E1 & F1).
    { apply Hin. left. reflexivity. }
    { exact Hi. }
    destruct (IH (fun j H => Hin j (or_intror H)) Hq st1) as (st2 & E2 & F2).
    exists st2. cbn [for_each]. rewrite E1, bind_Ok, E2. split; [reflexivity | congruence].
Qed.

Lemma quiet_sheet_emits_nothing (st : Extr) (sheet_name : string) (df : DataFrame) :
  quiet df = true ->
  exists st', process_sheet st (sheet_name, df) = Ok st' /\ full_data st' = full_data st.
Proof.
  intros Hq. unfold quiet in Hq. apply orb_true_iff in Hq as [Hq|Hq];
    apply andb_true_iff in Hq as [H0 H1].
  - apply Nat.eqb_eq in H0, H1. unfold process_sheet, read_labels.
    rewrite H0, H1. cbn. eexists. split; reflexivity.
  - apply Nat.leb_le in H0. unfold process_sheet.
    destruct (read_labels_spec df 0) as (rc & Erc & _); [lia|].
    destruct (read_labels_spec df 1) as (rl & Erl & _); [lia|].
    rewrite Erc, bind_Ok, Erl, bind_Ok.
    match goal with |- context [for_each _ ?s _] => set (st0 := s) end.
    destruct (quiet_rows_emit_nothing df sheet_name rc rl (range 2 (min 56 (shape0 df))))
      with (st := st0) as (st' & E & F).
    { intros i Hi. apply in_range in Hi. lia. }
    { exact H1. }
    exists st'. split; [exact E | exact F].
Qed.

(** C8, as stated, fails: a sheet that holds one row only has no data row,
    and reading its role row raises [IndexError]. *)
Lemma single_row_sheet_raises :
  shape0 title_sheet = 1 /\
  process_excel_file [("Notes", title_sheet)] = Raise IndexError.
Proof. split; vm_compute; reflexivity. Qed.

(** C8 (amended): a workbook with no sheet gives the empty record list,
    and so does a workbook each of whose sheets is empty or has its two
    header rows and, in rows 2 to 55, only rows that have a blank account
    cell or whose personnel cells stand for no name (the management
    columns being there); nothing is raised. A sheet with cells but fewer
    than two rows is outside this: reading its header rows raises. *)
Theorem empty_input_is_not_an_error (wb : list (string * DataFrame)) :
  Forall (fun sheet => quiet (snd sheet) = true) wb ->
  process_excel_file wb = Ok [] /\ process_excel_file [] = Ok [].
Proof.
  intros Hq. split; [|reflexivity]. unfold process_excel_file.
  assert (H : forall st, exists st', for_each process_sheet st wb = Ok st' /\
                                     full_data st' = full_data st).
  { induction Hq as [|[sheet_name df] wb Hs _ IH]; intros st.
    - exists st. split; reflexivity.
    - destruct (quiet_sheet_emits_nothing st sheet_name df Hs) as (st1 & E1 & F1).
      destruct (IH st1) as (st2 & E2 & F2).
      exists st2. cbn [for_each]. rewrite E1, bind_Ok, E2. split; [reflexivity | congruence]. }
  destruct (H initial) as (st' & E & F). rewrite E, bind_Ok, F. reflexivity.
Qed.

Lemma empty_input_is_not_an_error_witness :
  Forall (fun sheet => quiet (snd sheet) = true)
    [("A", empty_sheet); ("B", headers_only); ("C", idle_sheet)] /\
  process_excel_file [("A", empty_sheet); ("B", headers_only); ("C", idle_sheet)] = Ok [].
Proof.
  assert (H : Forall (fun sheet => quiet (snd sheet) = true)
                [("A", empty_sheet); ("B", headers_only); ("C", idle_sheet)]).
  { repeat constructor. }
  split; [exact H|].
  exact (proj1 (empty_input_is_not_an_error _ H)).
Defined.

(** ** Allocation (C4, C9) *)

Lemma groups_accounts (data_frame : list Rec) (groups : gmap string (gset string))
    (p a : string) :
  a ∈ default ∅ (fold_left group_step data_frame groups !! p) <->
  a ∈ default ∅ (groups !! p) \/
  exists r, In r data_frame /\ person r = p /\ account r = a.
Proof.
  revert groups. induction data_frame as [|r0 l IH]; intros groups.
  - simpl. split; [auto|]. intros [H|(r & [] & _)]. exact H.
  - cbn [fold_left]. rewrite IH. unfold group_step at 1. rewrite lookup_insert.
    destruct (decide (person r0 = p)) as [Hp|Hp].
    + simpl. rewrite elem_of_union, elem_of_singleton. rewrite Hp. split.
      * intros [[->|H]|(r & Hr & H1 & H2)].
        -- right. exists r0. split; [left; reflexivity|]. split; [exact Hp | reflexivity].
        -- left. exact H.
        -- right. exists r. split; [right; exact Hr|]. split; assumption.
      * intros [H|(r & [->|Hr] & H1 & H2)].
        -- left. right. exact H.
        -- left. left. symmetry. exact H2.
        -- right. exists r. split; [exact Hr|]. split; assumption.
    + split.
      * intros [H|(r & Hr & H1 & H2)]; [left; exact H|].
        right. exists r. split; [right; exact Hr|]. split; assumption.
      * intros [H|(r & [->|Hr] & H1 & H2)]; [left; exact H | contradiction |].
        right. exists r. split; [exact Hr|]. split; assumption.
Qed.

Lemma groups_present (data_frame : list Rec) (groups : gmap string (gset string))
    (r : Rec) :
  In r data_frame -> is_Some (fold_left group_step data_frame groups !! person r).
Proof.
  assert (Hkeep : forall l g p, is_Some (g !! p) -> is_Some (fold_left group_step l g !! p)).
  { induction l as [|r0 l IH]; intros g p Hg; [exact Hg|]. cbn [fold_left]. apply IH.
    unfold group_step. apply lookup_insert_is_Some.
    destruct (decide (person r0 = p)); [left; assumption | right; split; assumption]. }
  revert groups. induction data_frame as [|r0 l IH]; intros groups Hin; [destruct Hin|].
  cbn [fold_left]. destruct Hin as [->|Hin]; [|apply IH; exact Hin].
  apply Hkeep. unfold group_step. rewrite lookup_insert_eq. eexists. reflexivity.
Qed.

Lemma allocation_of (data_frame : list Rec) (r : Rec) (accounts : list string) :
  In r data_frame -> NoDup accounts ->
  (forall a, In a accounts <->
             exists r0, In r0 data_frame /\ person r0 = person r /\ account r0 = a) ->
  1 <= length accounts /\
  allocation_dict data_frame !! person r = Some (one_over (length accounts)).
Proof.
  intros Hin Hnd Hacc. split.
  - assert (Ha : In (account r) accounts).
    { apply Hacc. exists r. split; [exact Hin|]. split; reflexivity. }
    destruct accounts; [destruct Ha | simpl; lia].
  - unfold allocation_dict, person_account_counts, groupby_person_account.
    rewrite !lookup_fmap.
    destruct (groups_present data_frame ∅ r Hin) as [X HX]. rewrite HX. simpl.
    do 2 f_equal.
    assert (HXeq : X = list_to_set accounts).
    { apply set_eq. intros a. rewrite elem_of_list_to_set, list_elem_of_In, Hacc.
      pose proof (groups_accounts data_frame ∅ (person r) a) as G.
      rewrite HX, lookup_empty in G. simpl in G. rewrite G. split.
      - intros [H|H]; [|exact H]. apply not_elem_of_empty in H. destruct H.
      - intros H. right. exact H. }
    rewrite HXeq. apply size_list_to_set. exact Hnd.
Qed.

(** C4: on a frame that is not empty the annotator returns the same rows,
    each with [allocation] set to [1.0 / n], where [n] is the number of
    distinct accounts among the rows of that row's person; [n] is at least
    1. One account gives 1.0 and three accounts give a third. *)
Theorem allocation_correctness (data_frame : list Rec) :
  data_frame <> [] ->
  (exists annotated,
     calculate_fte_allocations data_frame = Ok annotated /\
     length annotated = length data_frame /\
     forall i r, data_frame !! i = Some r ->
       exists r', annotated !! i = Some r' /\
         person r' = person r /\ account r' = account r /\ role r' = role r /\
         technology_area r' = technology_area r /\
         forall accounts : list string,
           NoDup accounts ->
           (forall a, In a accounts <->
                      exists r0, In r0 data_frame /\ person r0 = person r /\ account r0 = a) ->
           1 <= length accounts /\
           allocation r' = Some (one_over (length accounts))) /\
  one_over 1 = 1%float /\ one_over 3 = (1 / 3)%float.
Proof.
  intros Hne. split; [|split; reflexivity].
  exists (map (set_allocation (allocation_dict data_frame)) data_frame).
  split; [destruct data_frame; [contradiction | reflexivity]|].
  split; [apply length_map|].
  intros i r Hi. exists (set_allocation (allocation_dict data_frame) r).
  split; [change (map ?f ?l) with (f <$> l); rewrite list_lookup_fmap, Hi; reflexivity|].
  do 4 (split; [reflexivity|]).
  intros accounts Hnd Hacc. simpl. apply allocation_of; [|exact Hnd | exact Hacc].
  apply list_elem_of_In. eapply list_elem_of_lookup_2. exact Hi.
Qed.

Lemma allocation_correctness_witness :
  staff <> [] /\
  calculate_fte_allocations staff =
  Ok [ mkRec "RBC" "" "" "" "Data" "" "Lead" "Ann" (Some (1 / 3)%float);
       mkRec "TD" "" "" "" "Data" "" "Lead" "Ann" (Some (1 / 3)%float);
       mkRec "RBC" "" "" "" "Cloud" "" "Architect" "Ann" (Some (1 / 3)%float);
       mkRec "BMO" "" "" "" "Cloud" "" "Lead" "Ann" (Some (1 / 3)%float);
       mkRec "BMO" "" "" "" "Cloud" "" "Architect" "Bo" (Some 1%float) ].
Proof.
  assert (H : staff <> []) by discriminate.
  split; [exact H|].
  destruct (allocation_correctness staff H) as ((annotated & E & _) & _).
  rewrite E. revert E. vm_compute. intros [= <-]. reflexivity.
Defined.

Lemma groups_pairs (l1 l2 : list Rec) (groups : gmap string (gset string)) :
  person_account_pairs l1 = person_account_pairs l2 ->
  fold_left group_step l1 groups = fold_left group_step l2 groups.
Proof.
  revert l2 groups. induction l1 as [|r1 l1 IH]; intros [|r2 l2] groups H;
    try discriminate; [reflexivity|].
  injection H as Hp Ha Hl. cbn [fold_left].
  replace (group_step groups r2) with (group_step groups r1).
  - apply IH. exact Hl.
  - unfold group_step. rewrite Hp, Ha. reflexivity.
Qed.

Lemma allocation_dict_pairs (l1 l2 : list Rec) :
  person_account_pairs l1 = person_account_pairs l2 ->
  allocation_dict l1 = allocation_dict l2.
Proof.
  intros H. unfold allocation_dict, person_account_counts, groupby_person_account.
  rewrite (groups_pairs l1 l2 ∅ H). reflexivity.
Qed.

Lemma set_allocation_pairs (d : gmap string float) (l : list Rec) :
  person_account_pairs (map (set_allocation d) l) = person_account_pairs l.
Proof. unfold person_account_pairs. rewrite map_map. reflexivity. Qed.

Lemma set_allocation_allocations (d : gmap string float) (l : list Rec) :
  map allocation (map (set_allocation d) l) =
  map (fun pa => d !! fst pa) (person_account_pairs l).
Proof. unfold person_account_pairs. rewrite !map_map. reflexivity. Qed.

(** C9: running the annotator on its own result gives that result again
    (and an empty frame raises the same exception both times), and two
    frames with the same [(person, account)] pairs, whatever their
    [allocation] values, get the same allocations. *)
Theorem idempotent_reannotation (data_frame : list Rec) :
  (calculate_fte_allocations data_frame ≫= calculate_fte_allocations) =
    calculate_fte_allocations data_frame /\
  forall other,
    person_account_pairs other = person_account_pairs data_frame ->
    match calculate_fte_allocations other, calculate_fte_allocations data_frame with
    | Ok x, Ok y => map allocation x = map allocation y
    | Raise e1, Raise e2 => e1 = e2
    | _, _ => False
    end.
Proof.
  split.
  - destruct data_frame as [|r l]; [reflexivity|].
    unfold calculate_fte_allocations at 2 3.
    set (d := allocation_dict (r :: l)). rewrite bind_Ok.
    unfold calculate_fte_allocations. cbn [map].
    rewrite <- (map_cons (set_allocation d) r l).
    rewrite (allocation_dict_pairs _ (r :: l) (set_allocation_pairs d (r :: l))).
    fold d. rewrite map_map. reflexivity.
  - intros other H.
    destruct other as [|r1 l1], data_frame as [|r2 l2]; try discriminate; [reflexivity|].
    unfold calculate_fte_allocations.
    rewrite (allocation_dict_pairs _ _ H), !set_allocation_allocations, H. reflexivity.
Qed.

(** ** Sheet isolation in the label-search revision (C7) *)

Lemma in_values_false (df : DataFrame) (row : list Cell) (x : string) :
  (forall c, c < shape1 df -> cell row c <> Val x) ->
  LabelSearch.in_values x (LabelSearch.values df row) = false.
Proof.
  intros H. unfold LabelSearch.in_values, LabelSearch.values.
  destruct (existsb _ _) eqn:E; [|reflexivity].
  apply existsb_exists in E as (v & Hin & Hv).
  apply in_map_iff in Hin as (c & <- & Hc). apply in_range in Hc.
  destruct (cell row c) as [|t] eqn:Ec; [discriminate|].
  apply String.eqb_eq in Hv. subst t. exfalso. apply (H c); [lia | exact Ec].
Qed.

Lemma find_header_none (df : DataFrame) (rs : list (list Cell)) (i : nat) :
  (forall row, In row rs -> forall c, c < shape1 df -> cell row c <> Val "Coverage Name") ->
  LabelSearch.find_header df rs i = None.
Proof.
  revert i. induction rs as [|row rs IH]; intros i H; [reflexivity|].
  cbn [LabelSearch.find_header]. rewrite in_values_false.
  - apply IH. intros row' Hin. apply H. right. exact Hin.
  - apply H. left. reflexivity.
Qed.

Lemma headerless_no_header (df : DataFrame) :
  headerless df -> LabelSearch.header_row_idx df = None.
Proof.
  intros H. unfold LabelSearch.header_row_idx. apply find_header_none.
  intros row Hin c Hc. apply list_elem_of_In, list_elem_of_lookup in Hin as (i & Hi).
  exact (H i row c Hi Hc).
Qed.

Lemma headerless_skipped (st : Extr) (sheet_name : string) (df : DataFrame) :
  headerless df -> LabelSearch.process_sheet st (sheet_name, df) = Ok st.
Proof.
  intros H. unfold LabelSearch.process_sheet. rewrite (headerless_no_header df H).
  reflexivity.
Qed.

(** C7, as stated, fails on [app.py]: the fixed layout is applied to every
    sheet and none is skipped. Next to a well-formed sheet, a sheet without
    header label and with a single row makes the extraction raise
    [IndexError], and one with a data row adds its record to those of the
    well-formed sheet. *)
Lemma fixed_layout_skips_no_sheet :
  headerless title_sheet /\
  process_excel_file [("Infrastructure", demo_sheet); ("Notes", title_sheet)] =
    Raise IndexError /\
  headerless unlabelled_sheet /\
  process_excel_file [("Infrastructure", demo_sheet); ("Notes", unlabelled_sheet)] =
    Ok [ mkRec "RBC" "Enterprise" "J.Smith" "" "Infrastructure" "Cloud" "AWS Lead" "Alice" None;
         mkRec "RBC" "Enterprise" "J.Smith" "" "Infrastructure" "Cloud" "AWS Lead" "Bob" None;
         mkRec "RBC" "" "" "" "Notes" "Notes" "" "Alice" None ].
Proof.
  split; [|split; [vm_compute; reflexivity|split; [|vm_compute; reflexivity]]].
  - intros i row c Hi Hc. destruct i as [|i]; [|discriminate Hi]. injection Hi as <-.
    destruct c as [|c]; [discriminate|]. simpl in Hc. lia.
  - intros i row c Hi Hc.
    destruct i as [|[|[|i]]]; [| | |discriminate Hi]; injection Hi as <-;
      do 8 (destruct c as [|c]; [discriminate|]); simpl in Hc; lia.
Qed.

(** C7 (amended): in the label-search revision a sheet in which no cell is
    the header label is skipped whole: its step changes no variable and
    raises nothing, and the workbook gives the outcome it gives without
    that sheet, the records of the other sheets in order. A workbook made
    of one well-formed sheet and one sheet without header yields exactly
    the records of the well-formed sheet. *)
Theorem sheet_isolation (before after : list (string * DataFrame))
    (sheet_name : string) (df : DataFrame) :
  headerless df ->
  (forall st, LabelSearch.process_sheet st (sheet_name, df) = Ok st) /\
  LabelSearch.process_excel_file (before ++ (sheet_name, df) :: after) =
    LabelSearch.process_excel_file (before ++ after) /\
  LabelSearch.process_excel_file [(sheet_name, df)] = Ok [] /\
  LabelSearch.process_excel_file [("Infrastructure", labelled_sheet); ("Notes", notes_sheet)] =
    Ok [ mkRec "RBC" "Enterprise" "J.Smith" "" "Infrastructure" "Cloud" "AWS Lead" "A.Lee" None;
         mkRec "TD" "" "" "" "Infrastructure" "Cloud" "Sec Lead" "Ann" None;
         mkRec "TD" "" "" "" "Infrastructure" "Cloud" "Sec Lead" "Bo" None ] /\
  LabelSearch.process_excel_file [("Infrastructure", labelled_sheet)] =
    LabelSearch.process_excel_file [("Infrastructure", labelled_sheet); ("Notes", notes_sheet)].
Proof.
  intros H. split; [intros st; apply headerless_skipped; exact H|].
  split; [|split; [|split; vm_compute; reflexivity]].
  - unfold LabelSearch.process_excel_file. rewrite !for_each_app.
    destruct (for_each LabelSearch.process_sheet initial before) as [st|e]; [|reflexivity].
    rewrite !bind_Ok. cbn [for_each]. rewrite (headerless_skipped st sheet_name df H).
    reflexivity.
  - unfold LabelSearch.process_excel_file. cbn [for_each].
    rewrite (headerless_skipped initial sheet_name df H). reflexivity.
Qed.

Lemma sheet_isolation_witness :
  headerless notes_sheet /\
  LabelSearch.process_excel_file
    ([("Infrastructure", labelled_sheet)] ++ ("Notes", notes_sheet) :: []) =
  LabelSearch.process_excel_file ([("Infrastructure", labelled_sheet)] ++ []).
Proof.
  assert (H : headerless notes_sheet).
  { intros i row c Hi Hc.
    destruct i as [|[|i]]; [| |discriminate Hi]; injection Hi as <-;
      do 7 (destruct c as [|c]; [discriminate|]); simpl in Hc; lia. }
  split; [exact H|].
  exact (proj1 (proj2 (sheet_isolation [("Infrastructure", labelled_sheet)] [] "Notes"
                         notes_sheet H))).
Defined.

(** ** Outcomes of the loops of [app.py] *)

Lemma for_each_collect {A : Type} (body : Extr -> A -> Result Extr)
    (f : A -> Result (list Rec)) (xs : list A) :
  (forall x, In x xs -> acts_as body f x) ->
  acts_as (for_each body) (collect f) xs.
Proof.
  induction xs as [|x xs IH]; intros H st.
  - simpl. exists st. rewrite app_nil_r. split; reflexivity.
  - cbn [collect for_each]. pose proof (H x (or_introl eq_refl) st) as Hx.
    destruct (f x) as [r|e]; [|rewrite Hx; reflexivity].
    destruct Hx as (st1 & E1 & F1). rewrite E1, !bind_Ok.
    pose proof (IH (fun y Hy => H y (or_intror Hy)) st1) as Hxs.
    destruct (collect f xs) as [rs|e]; [|exact Hxs].
    destruct Hxs as (st2 & E2 & F2). exists st2. split; [exact E2|].
    rewrite F2, F1, app_assoc. reflexivity.
Qed.

Lemma process_row_acts (df : DataFrame) (sheet_name : string)
    (role_categories roles : gmap nat string) :
  forall row, acts_as (process_row df sheet_name role_categories roles)
                (row_outcome df sheet_name role_categories roles) row.
Proof.
  intros row st. unfold row_outcome.
  destruct (Nat.ltb_spec (shape1 df) 2) as [H2|H2].
  { unfold process_row, getitem. destruct (Nat.ltb_spec 1 (shape1 df)); [lia|reflexivity]. }
  destruct (blank (cell row 1)) eqn:Hb.
  { exists st. rewrite app_nil_r. split; [|reflexivity]. apply process_row_blank; assumption. }
  destruct (Nat.ltb_spec (shape1 df) 5) as [H5|H5].
  - unfold process_row, management_field, getitem.
    destruct (Nat.ltb_spec 1 (shape1 df)); [|lia]. rewrite bind_Ok, Hb.
    destruct (Nat.ltb_spec 2 (shape1 df)); [|reflexivity]. rewrite !bind_Ok.
    destruct (Nat.ltb_spec 3 (shape1 df)); [|reflexivity]. rewrite !bind_Ok.
    destruct (Nat.ltb_spec 4 (shape1 df)); [lia|reflexivity].
  - destruct (process_row_spec df sheet_name role_categories roles st row H5 Hb)
      as (st' & E & F & _).
    exists st'. split; assumption.
Qed.

Lemma process_row_idx_acts (df : DataFrame) (sheet_name : string)
    (role_categories roles : gmap nat string) (i : nat) :
  i < shape0 df ->
  acts_as (process_row_idx df sheet_name role_categories roles)
    (fun i => row_outcome df sheet_name role_categories roles (row_at df i)) i.
Proof.
  intros Hi st. unfold process_row_idx. rewrite (iloc_row_at _ _ Hi), bind_Ok.
  apply process_row_acts.
Qed.

Lemma process_sheet_acts (sheet : string * DataFrame) :
  acts_as process_sheet sheet_outcome sheet.
Proof.
  destruct sheet as [sheet_name df]. intros st. unfold sheet_outcome, process_sheet.
  destruct (read_labels df 0) as [rc|e]; [|reflexivity]. rewrite !bind_Ok.
  destruct (read_labels df 1) as [rl|e]; [|reflexivity]. rewrite !bind_Ok.
  match goal with |- context [for_each _ ?s _] => set (st0 := s) end.
  change (full_data st) with (full_data st0).
  apply (for_each_collect (process_row_idx df sheet_name rc rl)).
  intros i Hi. apply process_row_idx_acts. apply in_range in Hi. lia.
Qed.

Lemma process_excel_file_collect (wb : list (string * DataFrame)) :
  process_excel_file wb = collect sheet_outcome wb.
Proof.
  unfold process_excel_file.
  pose proof (for_each_collect process_sheet sheet_outcome wb
                (fun x _ => process_sheet_acts x) initial) as H.
  destruct (collect sheet_outcome wb) as [recs|e].
  - destruct H as (st' & E & F). rewrite E, bind_Ok, F. reflexivity.
  - rewrite H. reflexivity.
Qed.

Lemma collect_app {A : Type} (f : A -> Result (list Rec)) (xs ys : list A) :
  collect f (xs ++ ys) = (r1 ← collect f xs; r2 ← collect f ys; Ok (r1 ++ r2)).
Proof.
  induction xs as [|x xs IH]; cbn [collect app].
  - rewrite bind_Ok. destruct (collect f ys); reflexivity.
  - destruct (f x) as [r|e]; [|reflexivity]. rewrite !bind_Ok, IH.
    destruct (collect f xs) as [rs|e]; [|reflexivity]. rewrite !bind_Ok.
    destruct (collect f ys) as [rs'|e]; [|reflexivity]. rewrite !bind_Ok, app_assoc.
    reflexivity.
Qed.

Lemma acts_as_raise {A : Type} (body : Extr -> A -> Result Extr)
    (f : A -> Result (list Rec)) (x : A) (st : Extr) (e : Exn) :
  acts_as body f x -> (body st x = Raise e <-> f x = Raise e).
Proof.
  intros H. specialize (H st). destruct (f x) as [recs|e'].
  - destruct H as (st' & E & _). rewrite E. split; discriminate.
  - rewrite H. split; intros [= <-]; reflexivity.
Qed.

Lemma collect_raise {A : Type} (f : A -> Result (list Rec)) (xs : list A) :
  (exists e, collect f xs = Raise e) <-> exists x e, In x xs /\ f x = Raise e.
Proof.
  induction xs as [|x xs IH]; cbn [collect].
  - split; [intros (e & H); discriminate | intros (x & e & [] & _)].
  - destruct (f x) as [r|e0] eqn:Ex.
    + rewrite bind_Ok. split.
      * intros (e & H). destruct (collect f xs) as [rs|e1]; [discriminate|].
        destruct (proj1 IH (ex_intro _ e1 eq_refl)) as (y & e2 & Hy & Ey).
        exists y, e2. split; [right; exact Hy | exact Ey].
      * intros (y & e & [<-|Hy] & Ey); [congruence|].
        destruct (proj2 IH (ex_intro _ y (ex_intro _ e (conj Hy Ey)))) as (e1 & H).
        rewrite H. exists e1. reflexivity.
    + split; [|intros _; exists e0; reflexivity].
      intros _. exists x, e0. split; [left; reflexivity | exact Ex].
Qed.

Lemma collect_raise_only {A : Type} (f : A -> Result (list Rec)) (xs : list A) (e0 e : Exn) :
  (forall x e', In x xs -> f x = Raise e' -> e' = e0) ->
  collect f xs = Raise e -> e = e0.
Proof.
  induction xs as [|x xs IH]; intros H; cbn [collect]; [discriminate|].
  destruct (f x) as [r|e1] eqn:Ex.
  - rewrite bind_Ok. destruct (collect f xs) as [rs|e2] eqn:Exs; [discriminate|].
    intros [= <-]. apply IH; [|reflexivity]. intros y e' Hy. apply H. right. exact Hy.
  - intros [= <-]. apply (H x e1); [left; reflexivity | exact Ex].
Qed.

Lemma row_outcome_raise (df : DataFrame) (sheet_name : string)
    (role_categories roles : gmap nat string) (row : list Cell) (e : Exn) :
  row_outcome df sheet_name role_categories roles row = Raise e <->
  e = KeyError /\ (shape1 df < 2 \/ (blank (cell row 1) = false /\ shape1 df < 5)).
Proof.
  unfold row_outcome.
  destruct (Nat.ltb_spec (shape1 df) 2) as [H2|H2].
  { split; [intros [= <-]; split; [reflexivity | left; exact H2]|intros [-> _]; reflexivity]. }
  destruct (blank (cell row 1)) eqn:Hb.
  { split; [discriminate|]. intros [_ [H|[H _]]]; [lia | discriminate]. }
  destruct (Nat.ltb_spec (shape1 df) 5) as [H5|H5].
  - split; [intros [= <-]; split; [reflexivity|right; split; [reflexivity|exact H5]]|].
    intros [-> _]. reflexivity.
  - split; [discriminate|]. intros [_ [H|[_ H]]]; lia.
Qed.

Lemma read_labels_no_column (df : DataFrame) (r : nat) :
  shape1 df = 0 -> read_labels df r = Ok ∅.
Proof. intros H. unfold read_labels. rewrite H. reflexivity. Qed.

Lemma read_labels_no_row (df : DataFrame) (r : nat) :
  0 < shape1 df -> shape0 df <= r -> read_labels df r = Raise IndexError.
Proof.
  intros Hw Hr.
  assert (Hstep : forall d col, read_labels_step df r d col = Raise IndexError).
  { intros d col. unfold read_labels_step, iloc.
    destruct (Nat.ltb_spec r (shape0 df)); [lia|]. reflexivity. }
  unfold read_labels, range. rewrite Nat.sub_0_r.
  destruct (shape1 df) as [|n]; [lia|]. cbn [seq for_each].
  rewrite Hstep. reflexivity.
Qed.

(** X1: the row extractor of [app.py] raises nothing but [KeyError], and
    raises it exactly when the frame has no account column, or when the
    account cell is not blank and one of the management columns 2 to 4 is
    not there. *)
Theorem row_extractor_raises (df : DataFrame) (sheet_name : string)
    (role_categories roles : gmap nat string) (st : Extr) (row : list Cell) (e : Exn) :
  process_row df sheet_name role_categories roles st row = Raise e <->
  e = KeyError /\ (shape1 df < 2 \/ (blank (cell row 1) = false /\ shape1 df < 5)).
Proof.
  rewrite (acts_as_raise _ _ row st e (process_row_acts df sheet_name role_categories roles row)).
  apply row_outcome_raise.
Qed.

Lemma sheet_outcome_raise (sheet_name : string) (df : DataFrame) (e : Exn) :
  sheet_outcome (sheet_name, df) = Raise e <->
  (e = IndexError /\ 0 < shape1 df /\ shape0 df < 2) \/
  (e = KeyError /\ ~ (0 < shape1 df /\ shape0 df < 2) /\
   exists i, 2 <= i < min 56 (shape0 df) /\
             (shape1 df < 2 \/ (blank (cell (row_at df i) 1) = false /\ shape1 df < 5))).
Proof.
  unfold sheet_outcome.
  destruct (Nat.eq_dec (shape1 df) 0) as [Hz|Hz];
    [|destruct (Nat.lt_ge_cases (shape0 df) 2) as [Hh|Hh]].
  - rewrite !read_labels_no_column by exact Hz. rewrite !bind_Ok.
    split.
    + intros H. right.
      pose proof (collect_raise_only _ _ KeyError e
                    (fun i e' _ He => proj1 (proj1 (row_outcome_raise _ _ _ _ _ _) He)) H) as ->.
      split; [reflexivity|]. split; [lia|].
      destruct (proj1 (collect_raise _ _) (ex_intro _ _ H)) as (i & e' & Hi & Hr).
      apply in_range in Hi. apply row_outcome_raise in Hr as [_ Hr].
      exists i. split; [exact Hi | exact Hr].
    + intros [(_ & H & _)|(-> & _ & i & Hi & Hr)]; [lia|].
      destruct (proj2 (collect_raise
                  (fun i => row_outcome df sheet_name ∅ ∅ (row_at df i))
                  (range 2 (min 56 (shape0 df))))) as (e' & H).
      { exists i, KeyError. split; [apply in_range; exact Hi|].
        apply row_outcome_raise. split; [reflexivity | exact Hr]. }
      rewrite H. f_equal.
      exact (collect_raise_only _ _ KeyError e'
               (fun i e' _ He => proj1 (proj1 (row_outcome_raise _ _ _ _ _ _) He)) H).
  - assert (Hr : read_labels df 0 = Raise IndexError \/
                 exists rc, read_labels df 0 = Ok rc /\ read_labels df 1 = Raise IndexError).
    { destruct (Nat.eq_dec (shape0 df) 0) as [H0|H0].
      - left. apply read_labels_no_row; lia.
      - right. destruct (read_labels_spec df 0) as (rc & E & _); [lia|].
        exists rc. split; [exact E|]. apply read_labels_no_row; lia. }
    assert (Hs : (rc ← read_labels df 0; rl ← read_labels df 1;
                  collect (fun i => row_outcome df sheet_name rc rl (row_at df i))
                    (range 2 (min 56 (shape0 df)))) = Raise IndexError).
    { destruct Hr as [E|(rc & E0 & E1)]; [rewrite E; reflexivity|].
      rewrite E0, bind_Ok, E1. reflexivity. }
    rewrite Hs. split.
    + intros [= <-]. left. split; [reflexivity|]. split; lia.
    + intros [(-> & _)|(_ & Hn & _)]; [reflexivity|]. exfalso. apply Hn. split; lia.
  - destruct (read_labels_spec df 0) as (rc & E0 & _); [lia|].
    destruct (read_labels_spec df 1) as (rl & E1 & _); [lia|].
    rewrite E0, bind_Ok, E1, bind_Ok. split.
    + intros H. right.
      pose proof (collect_raise_only _ _ KeyError e
                    (fun i e' _ He => proj1 (proj1 (row_outcome_raise _ _ _ _ _ _) He)) H) as ->.
      split; [reflexivity|]. split; [lia|].
      destruct (proj1 (collect_raise _ _) (ex_intro _ _ H)) as (i & e' & Hi & Hr).
      apply in_range in Hi. apply row_outcome_raise in Hr as [_ Hr].
      exists i. split; [exact Hi | exact Hr].
    + intros [(_ & _ & H)|(-> & _ & i & Hi & Hr)]; [lia|].
      destruct (proj2 (collect_raise
                  (fun i => row_outcome df sheet_name rc rl (row_at df i))
                  (range 2 (min 56 (shape0 df))))) as (e' & H).
      { exists i, KeyError. split; [apply in_range; exact Hi|].
        apply row_outcome_raise. split; [reflexivity | exact Hr]. }
      rewrite H. f_equal.
      exact (collect_raise_only _ _ KeyError e'
               (fun i e' _ He => proj1 (proj1 (row_outcome_raise _ _ _ _ _ _) He)) H).
Qed.

(** X2: what a sheet makes [process_excel_file] of [app.py] raise. The
    sheet step raises [IndexError] exactly when the sheet has cells and
    fewer than two rows, [KeyError] exactly when the header rows can be
    read and a row with index 2 to 55 meets a missing column (no account
    column, or a non-blank account with fewer than five columns), and
    never [TypeError]. *)
Theorem sheet_step_raises (st : Extr) (sheet_name : string) (df : DataFrame) :
  (process_sheet st (sheet_name, df) = Raise IndexError <->
   0 < shape1 df /\ shape0 df < 2) /\
  (process_sheet st (sheet_name, df) = Raise KeyError <->
   ~ (0 < shape1 df /\ shape0 df < 2) /\
   exists i, 2 <= i < min 56 (shape0 df) /\
             (shape1 df < 2 \/ (blank (cell (row_at df i) 1) = false /\ shape1 df < 5))) /\
  process_sheet st (sheet_name, df) <> Raise TypeError.
Proof.
  pose proof (fun e => acts_as_raise process_sheet sheet_outcome (sheet_name, df) st e
                         (process_sheet_acts (sheet_name, df))) as H.
  split; [|split].
  - rewrite H, sheet_outcome_raise. split.
    + intros [(_ & H1)|(H1 & _)]; [exact H1 | discriminate].
    + intros H1. left. split; [reflexivity | exact H1].
  - rewrite H, sheet_outcome_raise. split.
    + intros [(H1 & _)|(_ & H1)]; [discriminate | exact H1].
    + intros H1. right. split; [reflexivity | exact H1].
  - intros E. apply H, sheet_outcome_raise in E as [(E & _)|(E & _)]; discriminate.
Qed.

(** X4: sheets are extracted one after the other and independently. The
    records of a workbook made of two parts are the records of the first
    part followed by those of the second, and the first exception of
    either part is the exception of the whole. *)
Theorem workbook_composition (wb1 wb2 : list (string * DataFrame)) :
  process_excel_file (wb1 ++ wb2) =
  (r1 ← process_excel_file wb1; r2 ← process_excel_file wb2; Ok (r1 ++ r2)).
Proof. rewrite !process_excel_file_collect. apply collect_app. Qed.

(** ** What the extracted records look like *)

Lemma for_each_invariant {S A : Type} (P : S -> Prop) (body : S -> A -> Result S)
    (xs : list A) :
  (forall st x st', P st -> body st x = Ok st' -> P st') ->
  forall st st', P st -> for_each body st xs = Ok st' -> P st'.
Proof.
  intros Hstep. induction xs as [|x xs IH]; intros st st' HP; cbn [for_each].
  - intros [= <-]. exact HP.
  - destruct (body st x) as [st1|e] eqn:E; [|discriminate]. rewrite bind_Ok.
    apply IH. exact (Hstep st x st1 HP E).
Qed.

Lemma contains_cons (c d : ascii) (s : string) :
  contains c s = true -> contains c (String d s) = true.
Proof. intros H. simpl. rewrite H. destruct (Ascii.eqb d c); reflexivity. Qed.

Lemma contains_lstrip (c : ascii) (s : string) :
  contains c (lstrip s) = true -> contains c s = true.
Proof.
  induction s as [|d s IH]; [intros H; exact H|]. cbn [lstrip].
  destruct (isspace d); [|intros H; exact H].
  intros H. apply contains_cons, IH, H.
Qed.

Lemma contains_rstrip (c : ascii) (s : string) :
  contains c (rstrip s) = true -> contains c s = true.
Proof.
  induction s as [|d s IH]; [intros H; exact H|]. rewrite rstrip_cons.
  destruct (rstrip s) as [|x r] eqn:E.
  - destruct (isspace d); [discriminate|]. simpl.
    destruct (Ascii.eqb d c); [reflexivity | discriminate].
  - intros H. cbn [contains] in H |- *. destruct (Ascii.eqb d c); [reflexivity|].
    apply IH. exact H.
Qed.

Lemma contains_strip (c : ascii) (s : string) :
  contains c s = false -> contains c (strip s) = false.
Proof.
  intros H. destruct (contains c (strip s)) eqn:E; [|reflexivity].
  apply contains_rstrip, contains_lstrip in E. congruence.
Qed.

Lemma contains_split (c sep : ascii) (s p : string) :
  In p (split sep s) -> contains c s = false -> contains c p = false.
Proof.
  revert p. induction s as [|d s IH]; intros p; cbn [split].
  - intros [<-|[]] _. reflexivity.
  - intros Hin Hc. cbn [contains] in Hc.
    destruct (Ascii.eqb d c) eqn:Edc; [discriminate|].
    destruct (Ascii.eqb d sep).
    + destruct Hin as [<-|Hin]; [reflexivity | apply IH; assumption].
    + destruct (split sep s) as [|q qs].
      * destruct Hin as [<-|[]]. simpl. rewrite Edc. reflexivity.
      * destruct Hin as [<-|Hin].
        -- simpl. rewrite Edc. apply IH; [left; reflexivity | exact Hc].
        -- apply IH; [right; exact Hin | exact Hc].
Qed.

Lemma split_names_valid (v name : string) :
  truthy v = true -> trimmed v -> In name (split_names v) ->
  truthy name = true /\ trimmed name /\ contains ","%char name = false.
Proof.
  intros Hv Ht. unfold split_names.
  destruct (contains ","%char v) eqn:Ec.
  { intros Hin. apply in_map_iff in Hin as (p & <- & Hp).
    apply filter_In in Hp as [Hp Hn]. split; [exact Hn|]. split; [apply strip_idem|].
    apply contains_strip.
    pose proof (split_no_sep ","%char v) as Hall.
    rewrite List.Forall_forall in Hall. apply Hall. exact Hp. }
  destruct (contains "/"%char v) eqn:Es.
  { intros Hin. apply in_map_iff in Hin as (p & <- & Hp).
    apply filter_In in Hp as [Hp Hn]. split; [exact Hn|]. split; [apply strip_idem|].
    apply contains_strip. exact (contains_split _ _ _ _ Hp Ec). }
  intros [<-|[]]. split; [exact Hv|]. split; [exact Ht | exact Ec].
Qed.

Lemma cell_names_valid (v : Cell) (name : string) :
  In name (cell_names v) ->
  truthy name = true /\ trimmed name /\
  re_match_placeholder name = false /\ contains ","%char name = false.
Proof.
  unfold cell_names. destruct (blank v) eqn:Hb; [intros []|].
  destruct (re_match_placeholder (strip (str v))); [intros []|].
  intros Hin. apply filter_In in Hin as [Hin Hp].
  assert (Hv : truthy (strip (str v)) = true).
  { unfold blank in Hb. destruct (truthy (strip (str v))); [reflexivity|].
    destruct (isna v); discriminate. }
  destruct (split_names_valid _ _ Hv (strip_idem _) Hin) as (H1 & H2 & H3).
  split; [exact H1|]. split; [exact H2|]. split; [|exact H3].
  destruct (re_match_placeholder name); [discriminate | reflexivity].
Qed.

Lemma field_trimmed (row : list Cell) (c : nat) : trimmed (field row c).
Proof. unfold field. destruct (negb (isna (cell row c))); [apply strip_idem | reflexivity]. Qed.

Lemma read_labels_trimmed (df : DataFrame) (r : nat) (d : gmap nat string) :
  read_labels df r = Ok d -> forall c l, d !! c = Some l -> trimmed l.
Proof.
  unfold read_labels.
  apply (for_each_invariant (fun d : gmap nat string => forall c l, d !! c = Some l -> trimmed l)).
  - intros d0 col d1 Hd0. unfold read_labels_step.
    destruct (iloc df r col) as [v|e]; [|discriminate]. rewrite bind_Ok.
    destruct (negb (isna v) && truthy (strip (str v))); intros [= <-]; [|exact Hd0].
    intros c l. rewrite lookup_insert. destruct (decide (col = c)).
    + intros [= <-]. apply strip_idem.
    + apply Hd0.
  - intros c l. rewrite lookup_empty. discriminate.
Qed.

Lemma scan_left_trimmed (d : gmap nat string) (cols : list nat) :
  (forall c l, d !! c = Some l -> trimmed l) -> trimmed (scan_left d cols).
Proof.
  intros Hd. induction cols as [|c cols IH]; [reflexivity|]. cbn [scan_left].
  destruct (d !! c) as [l|] eqn:E; [exact (Hd c l E) | exact IH].
Qed.

Lemma row_records_valid (df : DataFrame) (sheet_name : string)
    (role_categories roles : gmap nat string) (row : list Cell) (names : list string) :
  (forall c l, role_categories !! c = Some l -> trimmed l) ->
  (forall c l, roles !! c = Some l -> trimmed l) ->
  blank (cell row 1) = false -> In sheet_name names ->
  Forall (valid_record names) (row_records df sheet_name role_categories roles row).
Proof.
  intros Hrc Hrl Hb Hin. apply List.Forall_forall. intros r Hr.
  unfold row_records in Hr. apply in_flat_map in Hr as (col & _ & Hr).
  unfold cell_records in Hr. apply in_map_iff in Hr as (name & <- & Hname).
  apply cell_names_valid in Hname. unfold valid_record. cbn.
  split; [exact Hname|]. split.
  { split; [|apply strip_idem]. unfold blank in Hb.
    destruct (truthy (strip (str (cell row 1)))); [reflexivity|].
    destruct (isna (cell row 1)); discriminate. }
  split; [|split; [exact Hin | reflexivity]].
  repeat split; try apply field_trimmed; apply scan_left_trimmed; assumption.
Qed.

Lemma collect_Forall {A : Type} (P : Rec -> Prop) (f : A -> Result (list Rec))
    (xs : list A) :
  (forall x r, In x xs -> f x = Ok r -> Forall P r) ->
  forall rs, collect f xs = Ok rs -> Forall P rs.
Proof.
  induction xs as [|x xs IH]; intros H rs; cbn [collect].
  - intros [= <-]. constructor.
  - destruct (f x) as [r|e] eqn:Ex; [|discriminate]. rewrite bind_Ok.
    destruct (collect f xs) as [rs'|e] eqn:Exs; [|discriminate]. rewrite bind_Ok.
    intros [= <-]. apply Forall_app. split.
    + apply (H x r); [left; reflexivity | exact Ex].
    + apply IH; [|reflexivity]. intros y r' Hy. apply H. right. exact Hy.
Qed.

Lemma sheet_outcome_valid (sheet_name : string) (df : DataFrame) (names : list string)
    (recs : list Rec) :
  In sheet_name names -> sheet_outcome (sheet_name, df) = Ok recs ->
  Forall (valid_record names) recs.
Proof.
  intros Hin. unfold sheet_outcome.
  destruct (read_labels df 0) as [rc|e] eqn:E0; [|discriminate]. rewrite bind_Ok.
  destruct (read_labels df 1) as [rl|e] eqn:E1; [|discriminate]. rewrite bind_Ok.
  apply collect_Forall. intros i r _. unfold row_outcome.
  destruct (shape1 df <? 2); [discriminate|].
  destruct (blank (cell (row_at df i) 1)) eqn:Hb; [intros [= <-]; constructor|].
  destruct (shape1 df <? 5); [discriminate|]. intros [= <-].
  apply row_records_valid; [exact (read_labels_trimmed _ _ _ E0)
                           | exact (read_labels_trimmed _ _ _ E1) | exact Hb | exact Hin].
Qed.

(** X3: every record [process_excel_file] of [app.py] returns has a person
    that is not empty, is trimmed, is no placeholder and holds no comma; an
    account that is not empty and is trimmed; trimmed client type, leader,
    manager, role and category; the name of one of the workbook's sheets
    as technology area; and no allocation yet. *)
Theorem extracted_records_valid (wb : list (string * DataFrame)) (recs : list Rec) :
  process_excel_file wb = Ok recs ->
  Forall (valid_record (map fst wb)) recs.
Proof.
  rewrite process_excel_file_collect. apply collect_Forall.
  intros [sheet_name df] r Hin. apply sheet_outcome_valid.
  apply in_map_iff. exists (sheet_name, df). split; [reflexivity | exact Hin].
Qed.

Lemma extracted_records_valid_witness :
  process_excel_file [("Infrastructure", demo_sheet)] =
    Ok [ mkRec "RBC" "Enterprise" "J.Smith" "" "Infrastructure" "Cloud" "AWS Lead" "Alice" None;
         mkRec "RBC" "Enterprise" "J.Smith" "" "Infrastructure" "Cloud" "AWS Lead" "Bob" None ] /\
  Forall (valid_record ["Infrastructure"])
    [ mkRec "RBC" "Enterprise" "J.Smith" "" "Infrastructure" "Cloud" "AWS Lead" "Alice" None;
      mkRec "RBC" "Enterprise" "J.Smith" "" "Infrastructure" "Cloud" "AWS Lead" "Bob" None ].
Proof.
  assert (H : process_excel_file [("Infrastructure", demo_sheet)] =
    Ok [ mkRec "RBC" "Enterprise" "J.Smith" "" "Infrastructure" "Cloud" "AWS Lead" "Alice" None;
         mkRec "RBC" "Enterprise" "J.Smith" "" "Infrastructure" "Cloud" "AWS Lead" "Bob" None ])
    by (vm_compute; reflexivity).
  split; [exact H|].
  exact (extracted_records_valid [("Infrastructure", demo_sheet)] _ H).
Defined.

(** ** The tallies kept for verification *)

Lemma sum_values_insert (m : gmap string nat) (k : string) (v : nat) :
  sum_values (<[k := v]> m) = v + sum_values (delete k m).
Proof.
  unfold sum_values. rewrite <- insert_delete_eq.
  apply map_fold_insert_L; [|apply lookup_delete_eq].
  intros. lia.
Qed.

Lemma sum_values_delete (m : gmap string nat) (k : string) :
  sum_values m = default 0 (m !! k) + sum_values (delete k m).
Proof.
  destruct (m !! k) as [v|] eqn:E; simpl.
  - unfold sum_values.
    apply (map_fold_delete_L (fun (_ : string) (v acc : nat) => v + acc) 0 k v m); [|exact E].
    intros. lia.
  - rewrite delete_id by exact E. reflexivity.
Qed.

Lemma records_of_snoc (a : string) (recs : list Rec) (r : Rec) :
  records_of a (recs ++ [r]) =
  records_of a recs + (if String.eqb (account r) a then 1 else 0).
Proof.
  unfold records_of. rewrite List.filter_app, length_app. cbn [List.filter].
  destruct (String.eqb (account r) a); reflexivity.
Qed.

Lemma add_person_counts (sheet_name a ct ld mg cat rl : string) (st : Extr) (name : string) :
  counts_agree st -> counts_agree (add_person sheet_name a ct ld mg cat rl st name).
Proof.
  intros [Hsum Hall]. unfold add_person.
  destruct (re_match_placeholder name); [split; assumption|].
  split; cbn [full_data account_personnel_count].
  - rewrite sum_values_insert, length_app. cbn [length].
    rewrite (sum_values_delete (account_personnel_count st) a) in Hsum.
    destruct (account_personnel_count st !! a); simpl in Hsum |- *; lia.
  - intros a'. rewrite records_of_snoc. cbn [account]. rewrite lookup_insert.
    destruct (decide (a = a')) as [<-|Hne].
    + rewrite String.eqb_refl. specialize (Hall a).
      destruct (account_personnel_count st !! a); simpl in Hall |- *; lia.
    + destruct (String.eqb_spec a a'); [contradiction|]. rewrite Hall. lia.
Qed.

Lemma process_cell_counts (df : DataFrame) (sheet_name : string)
    (role_categories roles : gmap nat string) (row : list Cell) (a ct ld mg : string)
    (st : Extr) (col_idx : nat) (st' : Extr) :
  counts_agree st ->
  process_cell df sheet_name role_categories roles row a ct ld mg st col_idx = Ok st' ->
  counts_agree st'.
Proof.
  intros H. unfold process_cell.
  destruct (getitem df row col_idx) as [v|e]; [|discriminate]. rewrite bind_Ok.
  destruct (blank v); [intros [= <-]; exact H|].
  destruct (re_match_placeholder (strip (str v))); [intros [= <-]; exact H|].
  intros [= <-]. clear -H. revert st H.
  induction (split_names (strip (str v))) as [|name names IH]; intros st H; [exact H|].
  cbn [fold_left]. apply IH, add_person_counts, H.
Qed.

Lemma process_row_counts (df : DataFrame) (sheet_name : string)
    (role_categories roles : gmap nat string) (st : Extr) (row : list Cell) (st' : Extr) :
  counts_agree st ->
  process_row df sheet_name role_categories roles st row = Ok st' ->
  counts_agree st'.
Proof.
  intros [Hsum Hall]. unfold process_row.
  destruct (getitem df row 1) as [v|e]; [|discriminate]. rewrite bind_Ok.
  destruct (blank v); [intros [= <-]; split; assumption|].
  destruct (management_field df row 2) as [ct|e]; [|discriminate]. rewrite bind_Ok.
  destruct (management_field df row 3) as [ld|e]; [|discriminate]. rewrite bind_Ok.
  destruct (management_field df row 4) as [mg|e]; [|discriminate]. rewrite bind_Ok.
  apply for_each_invariant; [intros s c s'; apply process_cell_counts|].
  split; cbn [full_data account_personnel_count].
  - destruct (account_personnel_count st !! strip (str v)) eqn:E; [exact Hsum|].
    rewrite sum_values_insert, delete_id by exact E. exact Hsum.
  - intros a. rewrite <- Hall.
    destruct (account_personnel_count st !! strip (str v)) eqn:E; [reflexivity|].
    rewrite lookup_insert. destruct (decide (strip (str v) = a)) as [<-|]; [|reflexivity].
    rewrite E. reflexivity.
Qed.

Lemma process_sheet_counts (st : Extr) (sheet : string * DataFrame) (st' : Extr) :
  counts_agree st -> process_sheet st sheet = Ok st' -> counts_agree st'.
Proof.
  destruct sheet as [sheet_name df]. intros H. unfold process_sheet.
  destruct (read_labels df 0) as [rc|e]; [|discriminate]. rewrite bind_Ok.
  destruct (read_labels df 1) as [rl|e]; [|discriminate]. rewrite bind_Ok.
  apply for_each_invariant; [|exact H].
  intros s i s' Hs. unfold process_row_idx.
  destruct (iloc_row df i) as [row|e]; [|discriminate]. rewrite bind_Ok.
  apply process_row_counts. exact Hs.
Qed.

(** X5: when the sheet loop of [app.py] ends, the tally it prints agrees
    with the records: for every account, [account_personnel_count] holds
    the number of records of that account (nothing for an account without
    record), and the values add up to [len(full_data)]. *)
Theorem tally_agrees_with_records (wb : list (string * DataFrame)) (st : Extr) :
  for_each process_sheet initial wb = Ok st ->
  sum_values (account_personnel_count st) = length (full_data st) /\
  forall a, default 0 (account_personnel_count st !! a) = records_of a (full_data st).
Proof.
  apply (for_each_invariant counts_agree); [apply process_sheet_counts|].
  split; [reflexivity|]. intros a. reflexivity.
Qed.

Lemma tally_agrees_with_records_witness :
  exists st,
    for_each process_sheet initial [("Infrastructure", demo_sheet); ("Data", lowercase_sheet)]
      = Ok st /\
    sum_values (account_personnel_count st) = length (full_data st) /\
    default 0 (account_personnel_count st !! "RBC") = 4.
Proof.
  destruct (for_each process_sheet initial
              [("Infrastructure", demo_sheet); ("Data", lowercase_sheet)]) as [st|e] eqn:E;
    [|vm_compute in E; discriminate E].
  exists st. split; [reflexivity|].
  destruct (tally_agrees_with_records _ st E) as [H1 H2].
  split; [exact H1|]. rewrite H2.
  revert E. vm_compute. intros [= <-]. reflexivity.
Defined.

Lemma process_row_sheet_count (df : DataFrame) (sheet_name : string)
    (role_categories roles : gmap nat string) (n : nat) (st : Extr) (row : list Cell)
    (st' : Extr) :
  length (full_data st) = n + sheet_personnel_count st ->
  process_row df sheet_name role_categories roles st row = Ok st' ->
  length (full_data st') = n + sheet_personnel_count st'.
Proof.
  intros H. unfold process_row.
  destruct (getitem df row 1) as [v|e]; [|discriminate]. rewrite bind_Ok.
  destruct (blank v); [intros [= <-]; exact H|].
  destruct (management_field df row 2) as [ct|e]; [|discriminate]. rewrite bind_Ok.
  destruct (management_field df row 3) as [ld|e]; [|discriminate]. rewrite bind_Ok.
  destruct (management_field df row 4) as [mg|e]; [|discriminate]. rewrite bind_Ok.
  apply (for_each_invariant
           (fun s => length (full_data s) = n + sheet_personnel_count s)); [|exact H].
  intros s c s' Hs. unfold process_cell.
  destruct (getitem df row c) as [w|e]; [|discriminate]. rewrite bind_Ok.
  destruct (blank w); [intros [= <-]; exact Hs|].
  destruct (re_match_placeholder (strip (str w))); [intros [= <-]; exact Hs|].
  intros [= <-].
  destruct (fold_add_person sheet_name (strip (str v)) ct ld mg
              (scan_left role_categories (range_down c)) (scan_left roles (range_down c))
              (split_names (strip (str w))) s) as (F & _ & S).
  rewrite F, S, length_app, length_map. lia.
Qed.

(** X6: the per-sheet counter printed after each sheet is the number of
    records the sheet added: when the sheet step returns, [full_data] has
    grown by [sheet_personnel_count]. *)
Theorem sheet_counter_agrees (st : Extr) (sheet : string * DataFrame) (st' : Extr) :
  process_sheet st sheet = Ok st' ->
  length (full_data st') = length (full_data st) + sheet_personnel_count st'.
Proof.
  destruct sheet as [sheet_name df]. unfold process_sheet.
  destruct (read_labels df 0) as [rc|e]; [|discriminate]. rewrite bind_Ok.
  destruct (read_labels df 1) as [rl|e]; [|discriminate]. rewrite bind_Ok.
  apply (for_each_invariant
           (fun s => length (full_data s) = length (full_data st) + sheet_personnel_count s)).
  - intros s i s' Hs. unfold process_row_idx.
    destruct (iloc_row df i) as [row|e]; [|discriminate]. rewrite bind_Ok.
    apply process_row_sheet_count. exact Hs.
  - cbn [full_data sheet_personnel_count]. lia.
Qed.

Lemma sheet_counter_agrees_witness :
  exists st',
    process_sheet initial ("Data", lowercase_sheet) = Ok st' /\
    length (full_data st') = length (full_data initial) + sheet_personnel_count st'.
Proof.
  destruct (process_sheet initial ("Data", lowercase_sheet)) as [st'|e] eqn:E;
    [|vm_compute in E; discriminate E].
  exists st'. split; [reflexivity|].
  exact (sheet_counter_agrees initial ("Data", lowercase_sheet) st' E).
Defined.

(** ** The main program and [account_details] *)

(** X7: in the main program an exception of the extraction is caught and
    replaced by an empty dataset, so one sheet whose step raises (for
    instance a sheet with cells and fewer than two rows) leaves no record
    at all, whatever the other sheets hold. *)
Theorem one_failing_sheet_empties_the_data (wb : list (string * DataFrame))
    (sheet : string * DataFrame) (st : Extr) (e : Exn) :
  In sheet wb -> process_sheet st sheet = Raise e ->
  (exists e', process_excel_file wb = Raise e') /\ load_data wb = [].
Proof.
  intros Hin Hr.
  apply (acts_as_raise _ _ _ _ _ (process_sheet_acts sheet)) in Hr.
  destruct (proj2 (collect_raise sheet_outcome wb)) as (e' & He').
  { exists sheet, e. split; assumption. }
  unfold load_data. rewrite process_excel_file_collect, He'.
  split; [exists e'; reflexivity | reflexivity].
Qed.

Lemma one_failing_sheet_empties_the_data_witness :
  In ("Notes", title_sheet) [("Infrastructure", demo_sheet); ("Notes", title_sheet)] /\
  process_sheet initial ("Notes", title_sheet) = Raise IndexError /\
  load_data [("Infrastructure", demo_sheet); ("Notes", title_sheet)] = [] /\
  length (load_data [("Infrastructure", demo_sheet)]) = 2.
Proof.
  assert (H0 : In ("Notes", title_sheet)
                 [("Infrastructure", demo_sheet); ("Notes", title_sheet)])
    by (right; left; reflexivity).
  assert (H1 : process_sheet initial ("Notes", title_sheet) = Raise IndexError)
    by (vm_compute; reflexivity).
  split; [exact H0|]. split; [exact H1|]. split; [|vm_compute; reflexivity].
  exact (proj2 (one_failing_sheet_empties_the_data _ _ _ _ H0 H1)).
Defined.

Lemma groupby_size_fold (key : Rec -> string) (frame : list Rec) (m : gmap string nat) :
  sum_values (fold_left (size_step key) frame m) = sum_values m + length frame /\
  forall k, default 0 (fold_left (size_step key) frame m !! k) =
            default 0 (m !! k) +
            length (List.filter (fun r => String.eqb (key r) k) frame).
Proof.
  revert m. induction frame as [|r frame IH]; intros m.
  - simpl. split; [lia | intros k; lia].
  - cbn [fold_left List.filter length]. destruct (IH (size_step key m r)) as [IH1 IH2]. split.
    + rewrite IH1. unfold size_step. rewrite sum_values_insert.
      rewrite (sum_values_delete m (key r)).
      destruct (m !! key r); simpl; lia.
    + intros k. rewrite IH2. unfold size_step. rewrite lookup_insert.
      destruct (decide (key r = k)) as [<-|Hne].
      * rewrite String.eqb_refl. destruct (m !! key r); simpl; lia.
      * destruct (String.eqb_spec (key r) k); [contradiction|]. lia.
Qed.

Lemma filter_filter_and {A : Type} (f g : A -> bool) (l : list A) :
  List.filter g (List.filter f l) = List.filter (fun x => f x && g x) l.
Proof.
  induction l as [|x l IH]; [reflexivity|]. cbn [List.filter].
  destruct (f x); cbn [List.filter andb]; [destruct (g x)|]; rewrite IH; reflexivity.
Qed.

Lemma groupby_size_lookup (key : Rec -> string) (frame : list Rec) (m : gmap string nat)
    (k : string) :
  fold_left (size_step key) frame m !! k =
  match length (List.filter (fun r => String.eqb (key r) k) frame) with
  | 0 => m !! k
  | S n => Some (default 0 (m !! k) + S n)
  end.
Proof.
  revert m. induction frame as [|r frame IH]; intros m; [reflexivity|].
  cbn [fold_left List.filter]. rewrite IH. unfold size_step. rewrite lookup_insert.
  destruct (decide (key r = k)) as [<-|Hne].
  - rewrite String.eqb_refl. cbn [length].
    destruct (length (List.filter (fun r0 => String.eqb (key r0) (key r)) frame)) as [|n];
      destruct (m !! key r); simpl; f_equal; lia.
  - destruct (String.eqb_spec (key r) k); [contradiction|]. reflexivity.
Qed.

Lemma groupby_size_present (key : Rec -> string) (frame : list Rec) (k : string) :
  groupby_size key frame !! k =
  present_count (length (List.filter (fun r => String.eqb (key r) k) frame)).
Proof.
  unfold groupby_size. rewrite groupby_size_lookup, lookup_empty.
  destruct (length _); reflexivity.
Qed.

(** X8: [account_details] on a loaded dataset. On the empty dataset the
    column access raises [KeyError]. Otherwise it returns the account name,
    [people] lists the person, role and technology area of the account's
    records in order, [total_people] is their number, each breakdown holds
    for every technology area, and for every role, exactly the number of
    the account's records with it (no entry where there is none), and the
    counts of each breakdown add up to [total_people]; an account without
    record gets zero and empty breakdowns. *)
Theorem account_details_adds_up (data : list Rec) (account_name : string) :
  account_details [] account_name = Raise KeyError /\
  (data <> [] ->
   exists d,
     account_details data account_name = Ok d /\
     Details.account d = account_name /\
     Details.total_people d = records_of account_name data /\
     Details.people d =
       map (fun r => (person r, role r, technology_area r))
         (List.filter (fun r => String.eqb (account r) account_name) data) /\
     length (Details.people d) = Details.total_people d /\
     sum_values (Details.tech_breakdown d) = Details.total_people d /\
     sum_values (Details.role_breakdown d) = Details.total_people d /\
     (forall k, Details.tech_breakdown d !! k =
                present_count
                  (length (List.filter
                             (fun r => String.eqb (account r) account_name &&
                                       String.eqb (technology_area r) k) data))) /\
     (forall k, Details.role_breakdown d !! k =
                present_count
                  (length (List.filter
                             (fun r => String.eqb (account r) account_name &&
                                       String.eqb (role r) k) data))) /\
     (records_of account_name data = 0 ->
      Details.tech_breakdown d = ∅ /\ Details.role_breakdown d = ∅ /\
      Details.people d = [])).
Proof.
  split; [reflexivity|]. intros Hne.
  unfold account_details. destruct data as [|r0 data0]; [contradiction|].
  cbn [column_access]. rewrite bind_Ok. clear Hne.
  generalize (r0 :: data0). clear r0 data0. intros data.
  eexists. split; [reflexivity|].
  cbn [Details.account Details.total_people Details.people Details.tech_breakdown
       Details.role_breakdown].
  split; [reflexivity|]. split; [reflexivity|]. split; [reflexivity|].
  split; [apply length_map|].
  split; [|split; [|split; [|split]]].
  - unfold groupby_size. rewrite (proj1 (groupby_size_fold _ _ _)). reflexivity.
  - unfold groupby_size. rewrite (proj1 (groupby_size_fold _ _ _)). reflexivity.
  - intros k. rewrite groupby_size_present, filter_filter_and. reflexivity.
  - intros k. rewrite groupby_size_present, filter_filter_and. reflexivity.
  - intros Hz. unfold records_of in Hz.
    destruct (List.filter _ data); [repeat split | discriminate].
Qed.

Lemma account_details_adds_up_witness :
  staff <> [] /\
  exists d, account_details staff "RBC" = Ok d /\ Details.total_people d = 2 /\
            sum_values (Details.tech_breakdown d) = 2 /\
            Details.role_breakdown d !! "Architect" = Some 1.
Proof.
  assert (H : staff <> []) by discriminate.
  split; [exact H|].
  destruct (proj2 (account_details_adds_up staff "RBC") H)
    as (d & E & _ & T & _ & _ & S & _ & _ & R & _).
  exists d. split; [exact E|]. rewrite S, T, R. repeat split.
Defined.

(** ** More on the allocation *)

Lemma groups_absent (data_frame : list Rec) (groups : gmap string (gset string)) (p : string) :
  (forall r, In r data_frame -> person r <> p) ->
  fold_left group_step data_frame groups !! p = groups !! p.
Proof.
  revert groups. induction data_frame as [|r l IH]; intros groups H; [reflexivity|].
  cbn [fold_left]. rewrite IH by (intros r' Hr'; apply H; right; exact Hr').
  unfold group_step. apply lookup_insert_ne. apply H. left. reflexivity.
Qed.

Lemma groups_lookup (data_frame : list Rec) (p : string) :
  (exists X, groupby_person_account data_frame !! p = Some X /\
             (exists r, In r data_frame /\ person r = p) /\
             forall a, a ∈ X <-> In (p, a) (person_account_pairs data_frame))
  \/ (groupby_person_account data_frame !! p = None /\
      forall a, ~ In (p, a) (person_account_pairs data_frame)).
Proof.
  unfold groupby_person_account, person_account_pairs.
  destruct (fold_left group_step data_frame ∅ !! p) as [X|] eqn:E.
  - left. exists X. split; [reflexivity|].
    assert (Hex : exists r, In r data_frame /\ person r = p).
    { destruct (List.Exists_dec (fun r => person r = p) data_frame
                  (fun r => String.string_dec (person r) p)) as [Hx|Hx].
      - apply List.Exists_exists in Hx. exact Hx.
      - rewrite groups_absent, lookup_empty in E; [discriminate|].
        intros r Hr Hp. apply Hx. apply List.Exists_exists. exists r. split; assumption. }
    split; [exact Hex|]. intros a.
    pose proof (groups_accounts data_frame ∅ p a) as G.
    rewrite E, lookup_empty in G. cbn [default] in G. simpl in G. rewrite G.
    rewrite in_map_iff. split.
    + intros [H|(r & Hr & <- & <-)]; [apply not_elem_of_empty in H; destruct H|].
      exists r. split; [reflexivity | exact Hr].
    + intros (r & [= <- <-] & Hr). right. exists r. repeat split. exact Hr.
  - right. split; [reflexivity|]. intros a Hin.
    apply in_map_iff in Hin as (r & [= <- <-] & Hr).
    destruct (groups_present data_frame ∅ r Hr) as [X HX]. congruence.
Qed.

Lemma groups_same_pairs (l1 l2 : list Rec) :
  (forall pa, In pa (person_account_pairs l1) <-> In pa (person_account_pairs l2)) ->
  groupby_person_account l1 = groupby_person_account l2.
Proof.
  intros H. apply map_eq. intros p.
  destruct (groups_lookup l1 p) as [(X1 & E1 & (r1 & Hr1 & Hp1) & H1)|(E1 & H1)];
    destruct (groups_lookup l2 p) as [(X2 & E2 & (r2 & Hr2 & Hp2) & H2)|(E2 & H2)];
    rewrite E1, E2.
  - f_equal. apply set_eq. intros a. rewrite H1, H2. apply H.
  - exfalso. apply (H2 (account r1)). apply H. apply in_map_iff.
    exists r1. split; [rewrite Hp1; reflexivity | exact Hr1].
  - exfalso. apply (H1 (account r2)). apply H. apply in_map_iff.
    exists r2. split; [rewrite Hp2; reflexivity | exact Hr2].
  - reflexivity.
Qed.

Lemma calculate_Ok (data_frame out : list Rec) :
  calculate_fte_allocations data_frame = Ok out ->
  out = map (set_allocation (allocation_dict data_frame)) data_frame.
Proof.
  unfold calculate_fte_allocations. destruct data_frame; [discriminate|].
  intros [= <-]. reflexivity.
Qed.

(** X9: the allocation depends only on which [(person, account)] pairs
    occur: two frames with the same set of pairs, in any row order and with
    any repetition, give the same dictionary, so the rows of one person get
    the same allocation in both, and every row of the result has one. *)
Theorem allocation_depends_on_pair_set (l1 l2 : list Rec) :
  (forall pa, In pa (person_account_pairs l1) <-> In pa (person_account_pairs l2)) ->
  allocation_dict l1 = allocation_dict l2 /\
  forall out1 out2,
    calculate_fte_allocations l1 = Ok out1 ->
    calculate_fte_allocations l2 = Ok out2 ->
    forall r1 r2, In r1 out1 -> In r2 out2 -> person r1 = person r2 ->
                  allocation r1 = allocation r2 /\ is_Some (allocation r1).
Proof.
  intros H.
  assert (Hd : allocation_dict l1 = allocation_dict l2).
  { unfold allocation_dict, person_account_counts. rewrite (groups_same_pairs l1 l2 H).
    reflexivity. }
  split; [exact Hd|]. intros out1 out2 E1 E2 r1 r2 Hr1 Hr2 Hp.
  apply calculate_Ok in E1 as ->. apply calculate_Ok in E2 as ->.
  apply in_map_iff in Hr1 as (s1 & <- & Hs1). apply in_map_iff in Hr2 as (s2 & <- & Hs2).
  cbn [allocation set_allocation person] in Hp |- *. rewrite Hd, Hp. split; [reflexivity|].
  unfold allocation_dict, person_account_counts, groupby_person_account.
  rewrite !lookup_fmap.
  destruct (groups_present l2 ∅ s2 Hs2) as [X HX]. rewrite HX. eexists. reflexivity.
Qed.

Lemma allocation_depends_on_pair_set_witness :
  (forall pa, In pa (person_account_pairs staff) <->
              In pa (person_account_pairs (rev staff ++ staff))) /\
  allocation_dict staff = allocation_dict (rev staff ++ staff).
Proof.
  assert (H : forall pa, In pa (person_account_pairs staff) <->
                         In pa (person_account_pairs (rev staff ++ staff))).
  { intros pa. unfold person_account_pairs. rewrite map_app, in_app_iff, map_rev, <- in_rev.
    split; [intros Hin; left; exact Hin | intros [Hin|Hin]; exact Hin]. }
  split; [exact H|].
  exact (proj1 (allocation_depends_on_pair_set staff (rev staff ++ staff) H)).
Defined.

(** ** Key columns in the label-search revision *)

Lemma find_header_Some (df : DataFrame) (rs : list (list Cell)) (i h : nat) :
  LabelSearch.find_header df rs i = Some h ->
  exists k row, h = i + k /\ rs !! k = Some row /\
                LabelSearch.in_values "Coverage Name" (LabelSearch.values df row) = true.
Proof.
  revert i. induction rs as [|row rs IH]; intros i; cbn [LabelSearch.find_header];
    [discriminate|].
  destruct (LabelSearch.in_values "Coverage Name" (LabelSearch.values df row)) eqn:E.
  - intros [= <-]. exists 0, row. split; [lia|]. split; [reflexivity | exact E].
  - intros H. destruct (IH _ H) as (k & row' & -> & Hk & Hv).
    exists (S k), row'. split; [lia|]. split; [exact Hk | exact Hv].
Qed.

Lemma in_values_true (df : DataFrame) (row : list Cell) (x : string) :
  LabelSearch.in_values x (LabelSearch.values df row) = true ->
  exists c, c < shape1 df /\ cell row c = Val x.
Proof.
  unfold LabelSearch.in_values, LabelSearch.values. intros H.
  apply existsb_exists in H as (v & Hin & Hv).
  apply in_map_iff in Hin as (c & <- & Hc). apply in_range in Hc.
  exists c. split; [lia|]. destruct (cell row c) as [|t]; [discriminate|].
  apply String.eqb_eq in Hv. rewrite Hv. reflexivity.
Qed.

Lemma values_lookup (df : DataFrame) (row : list Cell) (c : nat) (v : Cell) :
  LabelSearch.values df row !! c = Some v <-> c < shape1 df /\ v = cell row c.
Proof.
  unfold LabelSearch.values, range. rewrite Nat.sub_0_r.
  change (map (cell row) (seq 0 (shape1 df))) with (cell row <$> seq 0 (shape1 df)).
  rewrite list_lookup_fmap. split.
  - intros H. destruct (seq 0 (shape1 df) !! c) as [c'|] eqn:E; [|discriminate].
    apply lookup_seq in E as [-> Hc]. injection H as <-. split; [exact Hc | reflexivity].
  - intros [Hc ->]. rewrite (lookup_seq_lt _ _ _ Hc). reflexivity.
Qed.

Lemma column_mapping_In (df : DataFrame) (header : list Cell) (c : nat) (name : string) :
  In (c, name) (LabelSearch.column_mapping df header) <->
  c < shape1 df /\ blank (cell header c) = false /\ name = strip (str (cell header c)).
Proof.
  unfold LabelSearch.column_mapping. rewrite <- list_elem_of_In, list_elem_of_omap. split.
  - intros ([c' v] & Hin & Hf). apply elem_of_lookup_imap in Hin as (i & w & [= -> ->] & Hw).
    apply values_lookup in Hw as [Hc ->]. rewrite not_blank in Hf.
    destruct (blank (cell header i)) eqn:Hb; [discriminate|]. injection Hf as <- <-.
    split; [exact Hc|]. split; [exact Hb | reflexivity].
  - intros (Hc & Hb & ->). exists (c, cell header c). split.
    + apply elem_of_lookup_imap. exists c, (cell header c). split; [reflexivity|].
      apply values_lookup. split; [exact Hc | reflexivity].
    + rewrite not_blank, Hb. reflexivity.
Qed.

Lemma key_account_found (mapping : list (nat * string)) (k : LabelSearch.KeyCols) :
  is_Some (LabelSearch.account_col_idx k) \/ (exists c, In (c, "Coverage Name") mapping) ->
  is_Some (LabelSearch.account_col_idx (fold_left LabelSearch.key_columns_step mapping k)).
Proof.
  revert k. induction mapping as [|[c name] mapping IH]; intros k H.
  - destruct H as [H|(c & [])]. exact H.
  - cbn [fold_left]. apply IH.
    destruct H as [H|(c' & [[= -> ->]|H])].
    + left. unfold LabelSearch.key_columns_step.
      destruct (String.eqb name "Coverage Name"); [eexists; reflexivity|].
      destruct (String.eqb name "Client Sub Type"); [exact H|].
      destruct (String.eqb name "Leader"); [exact H|].
      destruct (String.eqb name "ATL Manager"); exact H.
    + left. cbn. eexists. reflexivity.
    + right. exists c'. exact H.
Qed.

Lemma key_manager_missing (mapping : list (nat * string)) (k : LabelSearch.KeyCols) :
  LabelSearch.manager_col_idx k = None ->
  (forall c name, In (c, name) mapping -> name <> "ATL Manager") ->
  LabelSearch.manager_col_idx (fold_left LabelSearch.key_columns_step mapping k) = None.
Proof.
  revert k. induction mapping as [|[c name] mapping IH]; intros k Hk H; [exact Hk|].
  cbn [fold_left]. apply IH; [|intros c' n Hin; apply (H c'); right; exact Hin].
  unfold LabelSearch.key_columns_step.
  destruct (String.eqb name "Coverage Name"); [exact Hk|].
  destruct (String.eqb name "Client Sub Type"); [exact Hk|].
  destruct (String.eqb name "Leader"); [exact Hk|].
  destruct (String.eqb_spec name "ATL Manager") as [->|_]; [|exact Hk].
  exfalso. apply (H c "ATL Manager"); [left; reflexivity | reflexivity].
Qed.

(** X10: in the label-search revision a sheet whose header row is found
    but holds no cell reading ATL Manager is not skipped: the comparison
    [col_idx <= manager_col_idx] with [None] raises [TypeError], from any
    state, and the exception ends the whole extraction. *)
Theorem missing_manager_label_raises (df : DataFrame) (sheet_name : string)
    (st : Extr) (h : nat) (before after : list (string * DataFrame))
    (recs : list Rec) :
  LabelSearch.header_row_idx df = Some h ->
  (forall c, c < shape1 df -> strip (str (cell (row_at df h) c)) <> "ATL Manager") ->
  LabelSearch.process_sheet st (sheet_name, df) = Raise TypeError /\
  (LabelSearch.process_excel_file before = Ok recs ->
   LabelSearch.process_excel_file (before ++ (sheet_name, df) :: after) = Raise TypeError).
Proof.
  intros Hh Hm.
  assert (Hs : forall st0, LabelSearch.process_sheet st0 (sheet_name, df) = Raise TypeError).
  { intros st0. unfold LabelSearch.process_sheet. rewrite Hh.
    unfold LabelSearch.header_row_idx in Hh.
    destruct (find_header_Some _ _ _ _ Hh) as (k & row & -> & Hk & Hv). cbn [Nat.add] in *.
    assert (Hrow : row_at df k = row) by (unfold row_at; rewrite Hk; reflexivity).
    rewrite iloc_row_at by (eapply lookup_lt_Some; exact Hk). rewrite bind_Ok, Hrow.
    rewrite Hrow in Hm.
    destruct (in_values_true _ _ _ Hv) as (c & Hc & Hcell).
    assert (Hin : In (c, "Coverage Name") (LabelSearch.column_mapping df row)).
    { apply column_mapping_In. rewrite Hcell. split; [exact Hc|]. split; reflexivity. }
    destruct (key_account_found (LabelSearch.column_mapping df row)
                (LabelSearch.mkKeyCols None None None None)) as [acc Hacc].
    { right. exists c. exact Hin. }
    unfold LabelSearch.key_columns. rewrite Hacc.
    rewrite key_manager_missing; [|reflexivity|].
    - destruct (LabelSearch.column_mapping df row) as [|[c0 n0] mapping]; [destruct Hin|].
      reflexivity.
    - intros c0 n0 H0. apply column_mapping_In in H0 as (Hc0 & _ & ->). apply Hm. exact Hc0. }
  split; [apply Hs|]. intros Hb.
  unfold LabelSearch.process_excel_file in Hb |- *. rewrite for_each_app.
  destruct (for_each LabelSearch.process_sheet initial before) as [st1|e]; [|discriminate].
  rewrite bind_Ok. cbn [for_each]. rewrite Hs. reflexivity.
Qed.

Lemma missing_manager_label_raises_witness :
  LabelSearch.header_row_idx no_manager_sheet = Some 0 /\
  (forall c, c < shape1 no_manager_sheet ->
             strip (str (cell (row_at no_manager_sheet 0) c)) <> "ATL Manager") /\
  LabelSearch.process_sheet initial ("Data", no_manager_sheet) = Raise TypeError.
Proof.
  assert (H0 : LabelSearch.header_row_idx no_manager_sheet = Some 0) by reflexivity.
  assert (H1 : forall c, c < shape1 no_manager_sheet ->
                 strip (str (cell (row_at no_manager_sheet 0) c)) <> "ATL Manager").
  { intros c Hc. do 4 (destruct c as [|c]; [discriminate|]). simpl in Hc. lia. }
  split; [exact H0|]. split; [exact H1|].
  exact (proj1 (missing_manager_label_raises no_manager_sheet "Data" initial 0 [] [] []
                  H0 H1)).
Defined.

(** ** Role inheritance *)

Lemma scan_left_label (df : DataFrame) (r : nat) (d : gmap nat string) (col_idx : nat) :
  (forall c, d !! c = label df r c) ->
  nearest_label df r col_idx (scan_left d (range_down col_idx)).
Proof.
  intros Hd. unfold nearest_label.
  destruct (scan_left_nearest d col_idx) as [(c & Hc & Hl & Hn)|(Hs & Hn)].
  - left. exists c. split; [exact Hc|]. split; [rewrite <- Hd; exact Hl|].
    intros c' Hc'. rewrite <- Hd. apply Hn. exact Hc'.
  - right. split; [exact Hs|]. intros c Hc. rewrite <- Hd. apply Hn. exact Hc.
Qed.

(** X11: the role of a record is resolved like its category, from row 1:
    it is the nearest non-blank role label at or to the left of the
    personnel column, the column of a management label included, and the
    empty string when there is none. So a name under an unlabelled column
    takes the role of the labelled column to its left. *)
Theorem role_inheritance (df : DataFrame) (sheet_name : string) :
  2 <= shape0 df ->
  exists roles,
    read_labels df 1 = Ok roles /\
    (forall col_idx, nearest_label df 1 col_idx (scan_left roles (range_down col_idx))) /\
    (forall role_categories row a ct ld mg st col_idx,
       col_idx < shape1 df ->
       exists st' recs,
         process_cell df sheet_name role_categories roles row a ct ld mg st col_idx = Ok st' /\
         full_data st' = full_data st ++ recs /\
         Forall (fun r => nearest_label df 1 col_idx (role r)) recs).
Proof.
  intros Hh. destruct (read_labels_spec df 1) as (rl & E & Hd); [lia|].
  exists rl. split; [exact E|]. split.
  - intros c. apply scan_left_label. exact Hd.
  - intros rc row a ct ld mg st c Hc.
    destruct (process_cell_spec df sheet_name rc rl row a ct ld mg st c Hc)
      as (st' & E' & F & _).
    exists st'. eexists. split; [exact E'|]. split; [exact F|].
    apply List.Forall_forall. intros r Hr. apply in_map_iff in Hr as (n & <- & _).
    cbn [role new_record]. apply scan_left_label. exact Hd.
Qed.

Lemma role_inheritance_witness :
  2 <= shape0 sparse_roles /\
  process_excel_file [("Data", sparse_roles)] =
    Ok [ mkRec "RBC" "" "" "" "Data" "" "ATL Manager" "Alice" None;
         mkRec "RBC" "" "" "" "Data" "" "Lead" "Bob" None ] /\
  exists roles,
    read_labels sparse_roles 1 = Ok roles /\
    nearest_label sparse_roles 1 7 (scan_left roles (range_down 7)).
Proof.
  assert (H0 : 2 <= shape0 sparse_roles) by (vm_compute; lia).
  split; [exact H0|]. split; [vm_compute; reflexivity|].
  destruct (role_inheritance sparse_roles "Data" H0) as (roles & E & Hl & _).
  exists roles. split; [exact E | apply Hl].
Defined.

(** ** The two placeholder patterns *)

Lemma before_final_newline_hyphens (n : nat) :
  before_final_newline (hyphens n) = hyphens n.
Proof.
  induction n as [|n IH]; [reflexivity|]. cbn [hyphens before_final_newline].
  destruct n as [|n]; [reflexivity|]. cbn [hyphens] in IH |- *. rewrite IH. reflexivity.
Qed.

Lemma single_hyphen_body (s : string) :
  LabelSearch.placeholder_body s = true -> placeholder_body s = true.
Proof.
  unfold LabelSearch.placeholder_body, placeholder_body. intros H.
  destruct (String.eqb s "TBD"); [reflexivity|].
  destruct (String.eqb s "N/A"); [reflexivity|].
  destruct (String.eqb s "None"); [reflexivity|].
  destruct (String.eqb s "Select"); [reflexivity|]. cbn [orb] in H |- *.
  apply String.eqb_eq in H. subst s. reflexivity.
Qed.

(** X12: the placeholder pattern of [app.py] accepts every text the
    pattern of the label-search revision accepts, and runs of two or more
    hyphens besides, which that revision takes for a name. *)
Theorem placeholder_pattern_widened (s : string) (n : nat) :
  (LabelSearch.re_match_placeholder s = true -> re_match_placeholder s = true) /\
  re_match_placeholder (hyphens (S (S n))) = true /\
  LabelSearch.re_match_placeholder (hyphens (S (S n))) = false.
Proof.
  split; [|split].
  - unfold LabelSearch.re_match_placeholder, re_match_placeholder. intros H.
    apply orb_true_iff in H as [H|H]; apply single_hyphen_body in H; rewrite H;
      [reflexivity | apply orb_true_r].
  - apply is_placeholder_match. right. right. right. right. exists (S n). reflexivity.
  - unfold LabelSearch.re_match_placeholder. rewrite before_final_newline_hyphens.
    reflexivity.
Qed.
